(** * ificu-ai: the to-do list view, the task form and the parsing endpoint

    A shallow embedding of

    - [src/types/todo.ts]                  (the task record),
    - [src/app/page.tsx]                   (list view: filter, sort, handlers),
    - [src/components/todo/TodoForm.tsx]   (manual and AI-assisted form),
    - the [POST] route of the parsing endpoint,

    and the properties of the specification that concern them. *)

From Stdlib Require Import ZArith Lia Ascii String.
From stdpp Require Import base option list strings gmap sorting.

Local Open Scope Z_scope.

(** ** JavaScript values used by the program *)

Module JS.

(** A string is its UTF-8 byte sequence (what a Rocq literal holds). *)

Fixpoint startsWith (q s : string) : bool :=
  match q, s with
  | EmptyString, _ => true
  | String a q', String b s' => if Ascii.eqb a b then startsWith q' s' else false
  | String _ _, EmptyString => false
  end.

(** [s.includes(q)] *)
Fixpoint includes (s q : string) : bool :=
  startsWith q s ||
  match s with
  | EmptyString => false
  | String _ s' => includes s' q
  end.

Definition codes (s : string) : list N :=
  List.map N_of_ascii (String.list_ascii_of_string s).

Definition of_codes (l : list N) : string :=
  String.string_of_list_ascii (List.map ascii_of_N l).

(** WhiteSpace and LineTerminator code points of ECMAScript, in UTF-8:
    U+0009..U+000D, U+0020, U+00A0, U+1680, U+2000..U+200A, U+2028, U+2029,
    U+202F, U+205F, U+3000, U+FEFF. *)
Definition WhiteSpace : list (list N) :=
  [ [9]; [10]; [11]; [12]; [13]; [32]; [194; 160]; [225; 154; 128];
    [226; 128; 128]; [226; 128; 129]; [226; 128; 130]; [226; 128; 131];
    [226; 128; 132]; [226; 128; 133]; [226; 128; 134]; [226; 128; 135];
    [226; 128; 136]; [226; 128; 137]; [226; 128; 138];
    [226; 128; 168]; [226; 128; 169]; [226; 128; 175]; [226; 129; 159];
    [227; 128; 128]; [239; 187; 191] ]%N.

Fixpoint drop_prefix (p l : list N) : option (list N) :=
  match p, l with
  | [], _ => Some l
  | a :: p', b :: l' => if N.eqb a b then drop_prefix p' l' else None
  | _ :: _, [] => None
  end.

Fixpoint drop_any (pats : list (list N)) (l : list N) : option (list N) :=
  match pats with
  | [] => None
  | p :: pats' =>
      match drop_prefix p l with
      | Some l' => Some l'
      | None => drop_any pats' l
      end
  end.

Fixpoint trim_front (pats : list (list N)) (fuel : nat) (l : list N) : list N :=
  match fuel with
  | O => l
  | S fuel' =>
      match drop_any pats l with
      | Some l' => trim_front pats fuel' l'
      | None => l
      end
  end.

Definition trimStart (s : string) : string :=
  let l := codes s in
  of_codes (trim_front WhiteSpace (length l) l).

Definition trimEnd (s : string) : string :=
  let l := rev (codes s) in
  of_codes (rev (trim_front (List.map (@rev N) WhiteSpace) (length l) l)).

(** [s.trim()] *)
Definition trim (s : string) : string := trimEnd (trimStart s).

(** Truthiness of a string: only the empty string is falsy. *)
Definition truthy (s : string) : bool :=
  match s with
  | EmptyString => false
  | String _ _ => true
  end.

(** Truthiness of [string | null | undefined]. *)
Definition truthy_opt (o : option string) : bool :=
  match o with
  | Some s => truthy s
  | None => false
  end.

(** [a || d] on strings and on optional values. *)
Definition str_or (a d : string) : string := if truthy a then a else d.

Definition opt_str_or (a : option string) (d : string) : string :=
  match a with
  | Some s => str_or s d
  | None => d
  end.

Definition opt_or {A} (a : option A) (d : A) : A :=
  match a with
  | Some x => x
  | None => d
  end.

(** Numbers as the program uses them: integral values (time values in
    milliseconds, their differences, comparator results) and NaN.  A
    difference of two time values may be rounded by the double arithmetic
    of the engine, its sign is not, and the sign is all the program uses. *)
Inductive Num := NaN | Int (z : Z).

Definition sub (a b : Num) : Num :=
  match a, b with
  | Int x, Int y => Int (x - y)
  | _, _ => NaN
  end.

(** Relational operators: every comparison with NaN is false. *)
Definition lt (a b : Num) : bool :=
  match a, b with
  | Int x, Int y => x <? y
  | _, _ => false
  end.

Definition ge (a b : Num) : bool :=
  match a, b with
  | Int x, Int y => y <=? x
  | _, _ => false
  end.

(** What the host provides and the language leaves to it: the parser of
    [new Date(string)] (time value, NaN for an invalid date), Unicode case
    mapping, and the collation of [localeCompare]. *)
Class Runtime := {
  Date_parse : string → Num;
  toLowerCase : string → string;
  localeCompare : string → string → Z
}.

End JS.

(** ** src/types/todo.ts *)

Inductive TodoPriority := high | medium | low.
Inductive TodoCategory := work (* 업무 *) | personal (* 개인 *) | study (* 학습 *).
Inductive TodoStatus :=
  | in_progress (* 진행 중 *)
  | done_       (* 완료 *)
  | overdue     (* 지연 *).

Global Instance TodoPriority_eq_dec : EqDecision TodoPriority.
Proof. solve_decision. Defined.
Global Instance TodoCategory_eq_dec : EqDecision TodoCategory.
Proof. solve_decision. Defined.
Global Instance TodoStatus_eq_dec : EqDecision TodoStatus.
Proof. solve_decision. Defined.

(** [null] and [undefined] of an optional field are both [None]: the
    program only tests such fields for truthiness or strict equality with
    a string constant. *)
Record Todo := {
  id : string;
  user_id : string;
  title : string;
  description : option string;
  created_date : string;
  due_date : option string;
  priority : option TodoPriority;
  category : option (list TodoCategory);
  completed : bool
}.

Global Instance Todo_eq_dec : EqDecision Todo.
Proof. solve_decision. Defined.

Module TodoInput.
Record t := {
  title : string;
  description : option string;
  due_date : option string;
  priority : option TodoPriority;
  category : option (list TodoCategory)
}.
End TodoInput.

(** A filter select: the value "전체" (all) or a specific value. *)
Inductive Select (A : Type) := all | only (a : A).
Arguments all {A}.
Arguments only {A} a.

Inductive SortBy := by_priority | by_due_date | by_created_date | by_title.

(** ** Effects: state, a trace of observable steps, exceptions

    Handlers are sequences of steps over some state; each remote call, each
    state update and each message is recorded in order, and [throw],
    [try]/[catch] and [finally] are those of the language. *)

Module Eff.
Section Eff.
Context {St Ev Ex : Type}.

Inductive Outcome (A : Type) := Return (a : A) | Throw (e : Ex).
Arguments Return {A} a.
Arguments Throw {A} e.

Definition t (A : Type) : Type := St → list Ev * St * Outcome A.

Definition ret {A} (a : A) : t A := λ σ, ([], σ, Return a).

Definition bind {A B} (m : t A) (k : A → t B) : t B :=
  λ σ,
    match m σ with
    | (tr, σ1, Return a) =>
        match k a σ1 with
        | (tr', σ2, o) => (tr ++ tr', σ2, o)
        end
    | (tr, σ1, Throw e) => (tr, σ1, Throw e)
    end.

Definition throw {A} (e : Ex) : t A := λ σ, ([], σ, Throw e).

Definition emit (ev : Ev) : t unit := λ σ, ([ev], σ, Return tt).

Definition get : t St := λ σ, ([], σ, Return σ).

Definition modify (f : St → St) : t unit := λ σ, ([], f σ, Return tt).

(** [try { m } catch (e) { h e }] *)
Definition try_catch {A} (m : t A) (h : Ex → t A) : t A :=
  λ σ,
    match m σ with
    | (tr, σ1, Return a) => (tr, σ1, Return a)
    | (tr, σ1, Throw e) =>
        match h e σ1 with
        | (tr', σ2, o) => (tr ++ tr', σ2, o)
        end
    end.

(** [try { m } finally { f }], for an [f] that completes normally or throws. *)
Definition try_finally {A} (m : t A) (f : t unit) : t A :=
  λ σ,
    match m σ with
    | (tr, σ1, o) =>
        match f σ1 with
        | (tr', σ2, Return _) => (tr ++ tr', σ2, o)
        | (tr', σ2, Throw e) => (tr ++ tr', σ2, Throw e)
        end
    end.

(** [m] runs from [σ] to [σ'] without an observable step and returns [a]. *)
Definition returns {A} (m : t A) (σ : St) (a : A) (σ' : St) : Prop :=
  m σ = ([], σ', Return a).

End Eff.
Arguments Return {Ex A} a.
Arguments Throw {Ex A} e.
Arguments t : clear implicits.
End Eff.

Declare Scope eff_scope.
Delimit Scope eff_scope with eff.
Notation "'let*' x := m 'in' k" := (Eff.bind m (λ x, k))
  (at level 10, x binder, m at level 100, k at level 200) : eff_scope.
Notation "m ;; k" := (Eff.bind m (λ _, k))
  (at level 100, k at level 200, right associativity) : eff_scope.

(** ** Arrays: a store of mutable arrays of task records

    [Array.prototype.sort] works in place and [filter] and the spread
    [[...a]] allocate, so arrays live in a store and are passed by
    reference.  The records themselves are never assigned to by the list
    view and are kept as values. *)

Module Arr.

Abbreviation ref := nat (only parsing).

(** A reference that is not allocated cannot arise in the language; the
    model stops there. *)
Inductive Stuck := dangling (r : ref).

Abbreviation M := (Eff.t (gmap nat (list Todo)) Empty_set Stuck) (only parsing).

Definition alloc (l : list Todo) : M ref :=
  λ σ, let r := fresh (dom σ) in ([], <[r := l]> σ, Eff.Return r).

Definition read (r : ref) : M (list Todo) :=
  λ σ,
    match σ !! r with
    | Some l => ([], σ, Eff.Return l)
    | None => ([], σ, Eff.Throw (dangling r))
    end.

Definition write (r : ref) (l : list Todo) : M unit :=
  λ σ,
    match σ !! r with
    | Some _ => ([], <[r := l]> σ, Eff.Return tt)
    | None => ([], σ, Eff.Throw (dangling r))
    end.

(** [SortCompare]: a NaN result of the comparator counts as [+0]. *)
Definition SortCompare {A} (comparefn : A → A → JS.Num) (x y : A) : Z :=
  match comparefn x y with
  | JS.NaN => 0
  | JS.Int v => v
  end.

(** The order [Array.prototype.sort] produces is fixed by the language for
    a consistent comparator: sorted with respect to it, and stable (equal
    elements keep their order).  Insertion from the right computes that
    order: [x] moves past [y] only when [comparefn x y > 0]. *)
Fixpoint insert {A} (comparefn : A → A → JS.Num) (x : A) (l : list A) : list A :=
  match l with
  | [] => [x]
  | y :: l' =>
      if 0 <? SortCompare comparefn x y
      then y :: insert comparefn x l'
      else x :: y :: l'
  end.

Fixpoint sorted {A} (comparefn : A → A → JS.Num) (l : list A) : list A :=
  match l with
  | [] => []
  | x :: l' => insert comparefn x (sorted comparefn l')
  end.

Local Open Scope eff_scope.

(** [[...a]] *)
Definition spread (a : ref) : M ref :=
  let* l := read a in alloc l.

(** [a.filter(p)] *)
Definition filter (a : ref) (p : Todo → bool) : M ref :=
  let* l := read a in alloc (List.filter p l).

(** [a.sort(comparefn)] *)
Definition sort (a : ref) (comparefn : Todo → Todo → JS.Num) : M ref :=
  let* l := read a in
  write a (sorted comparefn l);;
  Eff.ret a.

(** [σ'] is [σ] with more arrays, one of them [r] holding [l]. *)
Definition extends (σ σ' : gmap nat (list Todo)) (r : ref) (l : list Todo) : Prop :=
  σ' !! r = Some l ∧ (r ∉ dom σ) ∧ ∀ k, k ∈ dom σ → σ' !! k = σ !! k.

End Arr.

(** ** src/app/page.tsx: the list view *)

Section ListView.
Context {rt : JS.Runtime}.

(** [new Date(todo.due_date)], reached only behind a truthiness test of
    the field. *)
Definition new_Date (s : option string) : JS.Num :=
  match s with
  | Some s => JS.Date_parse s
  | None => JS.NaN
  end.

(** The callback of the search filter; [query] is the lowercased search
    text. *)
Definition searchFn (query : string) (todo : Todo) : bool :=
  JS.includes (JS.toLowerCase (title todo)) query.

(** The callback of the status filter, for a specific [statusFilter]. *)
Definition statusFn (statusFilter : TodoStatus) (now : Z) (todo : Todo) : bool :=
  match statusFilter with
  | done_ => completed todo
  | in_progress =>
      negb (completed todo) &&
      (negb (JS.truthy_opt (due_date todo)) ||
       JS.ge (new_Date (due_date todo)) (JS.Int now))
  | overdue =>
      negb (completed todo) &&
      JS.truthy_opt (due_date todo) &&
      JS.lt (new_Date (due_date todo)) (JS.Int now)
  end.

(** The callback of the priority filter: [todo.priority === priorityFilter]. *)
Definition priorityFn (priorityFilter : TodoPriority) (todo : Todo) : bool :=
  bool_decide (priority todo = Some priorityFilter).

Definition priorityOrder (p : TodoPriority) : Z :=
  match p with
  | high => 3
  | medium => 2
  | low => 1
  end.

(** The comparator handed to [sort]. *)
Definition compareFn (sortBy : SortBy) (a b : Todo) : JS.Num :=
  match sortBy with
  | by_priority =>
      let aPriority := priorityOrder (JS.opt_or (priority a) low) in
      let bPriority := priorityOrder (JS.opt_or (priority b) low) in
      JS.Int (bPriority - aPriority)
  | by_due_date =>
      if negb (JS.truthy_opt (due_date a)) && negb (JS.truthy_opt (due_date b))
      then JS.Int 0
      else if negb (JS.truthy_opt (due_date a)) then JS.Int 1
      else if negb (JS.truthy_opt (due_date b)) then JS.Int (-1)
      else JS.sub (new_Date (due_date a)) (new_Date (due_date b))
  | by_created_date =>
      JS.sub (JS.Date_parse (created_date b)) (JS.Date_parse (created_date a))
  | by_title => JS.Int (JS.localeCompare (title a) (title b))
  end.

Local Open Scope eff_scope.

(** The body of [filteredAndSortedTodos]; [todos] is the stored list and
    [now] the clock reading of [new Date()]. *)
Definition filteredAndSortedTodos
    (todos : Arr.ref) (searchQuery : string)
    (statusFilter : Select TodoStatus) (priorityFilter : Select TodoPriority)
    (sortBy : SortBy) (now : Z) : Arr.M Arr.ref :=
  let* filtered := Arr.spread todos in
  let* filtered :=
    if JS.truthy (JS.trim searchQuery)
    then
      let query := JS.toLowerCase searchQuery in
      Arr.filter filtered (searchFn query)
    else Eff.ret filtered in
  let* filtered :=
    match statusFilter with
    | only st => Arr.filter filtered (statusFn st now)
    | all => Eff.ret filtered
    end in
  let* filtered :=
    match priorityFilter with
    | only p => Arr.filter filtered (priorityFn p)
    | all => Eff.ret filtered
    end in
  Arr.sort filtered (compareFn sortBy);;
  Eff.ret filtered.

(** The list the view holds, as a function of the stored list: what the
    steps above compute on the contents. *)
Definition view
    (l : list Todo) (searchQuery : string)
    (statusFilter : Select TodoStatus) (priorityFilter : Select TodoPriority)
    (sortBy : SortBy) (now : Z) : list Todo :=
  let l1 :=
    if JS.truthy (JS.trim searchQuery)
    then List.filter (searchFn (JS.toLowerCase searchQuery)) l
    else l in
  let l2 :=
    match statusFilter with
    | only st => List.filter (statusFn st now) l1
    | all => l1
    end in
  let l3 :=
    match priorityFilter with
    | only p => List.filter (priorityFn p) l2
    | all => l2
    end in
  Arr.sorted (compareFn sortBy) l3.

(** The due date of a task, when it has one, is a date: what the store
    holds in its timestamp column always is. *)
Definition valid_due_date (todo : Todo) : bool :=
  negb (JS.truthy_opt (due_date todo)) ||
  match new_Date (due_date todo) with
  | JS.Int _ => true
  | JS.NaN => false
  end.

(** The sort key of the due-date order: the time value of the due date,
    [None] for a task without one. *)
Definition due_key (todo : Todo) : option Z :=
  if JS.truthy_opt (due_date todo)
  then
    match new_Date (due_date todo) with
    | JS.Int ms => Some ms
    | JS.NaN => None
    end
  else None.

(** Ascending by due date, tasks without due date last. *)
Definition due_le (a b : Todo) : Prop :=
  match due_key a, due_key b with
  | Some x, Some y => x ≤ y
  | Some _, None => True
  | None, Some _ => False
  | None, None => True
  end.

End ListView.


(** ** Values thrown and caught *)

Inductive Thrown :=
  | error_obj (message : string) (statusCode : option Z) (* instanceof Error *)
  | other_obj (statusCode : option Z)                    (* another object *)
  | primitive.                                           (* anything else *)

(** ** src/app/page.tsx: state and handlers *)

Module User.
Record t := { id : string; email : option string }.
End User.

Module Page.

Record State := {
  user : option User.t;
  todos : list Todo;
  editingTodo : option Todo;
  isLoadingTodos : bool;
  isFormLoading : bool
}.

(** The row sent by an insert or a field update. *)
Record Row := {
  row_user_id : option string;
  row_title : string;
  row_description : option string;
  row_due_date : option string;
  row_priority : TodoPriority;
  row_category : list TodoCategory;
  row_completed : option bool
}.

(** The answer of an awaited remote call: [{ data, error }], or a rejection. *)
Inductive Answer :=
  | answered (data : option (list Todo)) (error : option Thrown)
  | rejected (e : Thrown).

(** The remote table, as far as one handler run sees it. *)
Record Supabase := {
  select_todos : string → Answer;
  update_completed : string → bool → string → Answer;
  update_fields : string → string → Row → Answer;
  insert_todo : Row → Answer
}.

(** Observable steps of a handler, in program order. *)
Inductive Step :=
  | alert (msg : string)
  | console_error (msg : string) (e : Thrown)
  | await_select (userId : string)
  | await_update_completed (id : string) (completed : bool) (userId : string)
  | await_update_fields (id : string) (userId : string) (row : Row)
  | await_insert (row : Row)
  | set_todos (new : list Todo)
  | set_editingTodo (new : option Todo)
  | set_isLoadingTodos (new : bool)
  | set_isFormLoading (new : bool).

Abbreviation M := (Eff.t State Step Thrown) (only parsing).

Local Open Scope eff_scope.

Definition await (call : Step) (a : Answer) : M (option (list Todo) * option Thrown) :=
  Eff.emit call;;
  match a with
  | answered data error => Eff.ret (data, error)
  | rejected e => Eff.throw e
  end.

(** [setTodos(f)] with an updater function: [f] is applied to the state
    at the time of the update. *)
Definition setTodos (f : list Todo → list Todo) : M unit :=
  let* σ := Eff.get in
  Eff.emit (set_todos (f (todos σ)));;
  Eff.modify (λ σ, {| user := user σ; todos := f (todos σ);
                      editingTodo := editingTodo σ;
                      isLoadingTodos := isLoadingTodos σ;
                      isFormLoading := isFormLoading σ |}).

Definition setEditingTodo (v : option Todo) : M unit :=
  Eff.emit (set_editingTodo v);;
  Eff.modify (λ σ, {| user := user σ; todos := todos σ; editingTodo := v;
                      isLoadingTodos := isLoadingTodos σ;
                      isFormLoading := isFormLoading σ |}).

Definition setIsLoadingTodos (v : bool) : M unit :=
  Eff.emit (set_isLoadingTodos v);;
  Eff.modify (λ σ, {| user := user σ; todos := todos σ;
                      editingTodo := editingTodo σ; isLoadingTodos := v;
                      isFormLoading := isFormLoading σ |}).

Definition setIsFormLoading (v : bool) : M unit :=
  Eff.emit (set_isFormLoading v);;
  Eff.modify (λ σ, {| user := user σ; todos := todos σ;
                      editingTodo := editingTodo σ;
                      isLoadingTodos := isLoadingTodos σ; isFormLoading := v |}).

(** [{ ...t, completed: !t.completed }] *)
Definition flip_completed (t : Todo) : Todo :=
  {| id := id t; user_id := user_id t; title := title t;
     description := description t; created_date := created_date t;
     due_date := due_date t; priority := priority t;
     category := category t; completed := negb (completed t) |}.

(** The updater of the completion toggle:
    [prev.map((t) => (t.id === id ? { ...t, completed: !t.completed } : t))] *)
Definition toggled (id' : string) (prev : list Todo) : list Todo :=
  List.map (λ t, if bool_decide (id t = id') then flip_completed t else t) prev.

(** [x || null] for an optional string. *)
Definition or_null (x : option string) : option string :=
  if JS.truthy_opt x then x else None.

Section Handlers.
Variable supabase : Supabase.

Definition fetchTodos (userId : string) : M unit :=
  setIsLoadingTodos true;;
  Eff.try_finally
    (Eff.try_catch
       (let* r := await (await_select userId) (select_todos supabase userId) in
        match r.2 with
        | Some error => Eff.throw error
        | None => setTodos (λ _, JS.opt_or r.1 [])
        end)
       (λ error,
          Eff.emit (console_error "할 일 조회 실패:" error);;
          Eff.emit (alert "할 일 목록을 불러오는 중 오류가 발생했습니다.")))
    (setIsLoadingTodos false).

Definition handleSubmit (data : TodoInput.t) : M unit :=
  let* σ := Eff.get in
  match user σ with
  | None => Eff.emit (alert "로그인이 필요합니다.")
  | Some u =>
      setIsFormLoading true;;
      Eff.try_finally
        (Eff.try_catch
           (match editingTodo σ with
            | Some editing =>
                let row :=
                  {| row_user_id := None;
                     row_title := TodoInput.title data;
                     row_description := or_null (TodoInput.description data);
                     row_due_date := or_null (TodoInput.due_date data);
                     row_priority := JS.opt_or (TodoInput.priority data) medium;
                     row_category := JS.opt_or (TodoInput.category data) [];
                     row_completed := None |} in
                let* r := await (await_update_fields (id editing) (User.id u) row)
                            (update_fields supabase (id editing) (User.id u) row) in
                match r.2 with
                | Some error => Eff.throw error
                | None => setEditingTodo None
                end
            | None =>
                let row :=
                  {| row_user_id := Some (User.id u);
                     row_title := TodoInput.title data;
                     row_description := or_null (TodoInput.description data);
                     row_due_date := or_null (TodoInput.due_date data);
                     row_priority := JS.opt_or (TodoInput.priority data) medium;
                     row_category := JS.opt_or (TodoInput.category data) [];
                     row_completed := Some false |} in
                let* r := await (await_insert row) (insert_todo supabase row) in
                match r.2 with
                | Some error => Eff.throw error
                | None => Eff.ret tt
                end
            end;;
            fetchTodos (User.id u))
           (λ error,
              Eff.emit (console_error "할 일 저장 실패:" error);;
              Eff.emit (alert "할 일을 저장하는 중 오류가 발생했습니다.")))
        (setIsFormLoading false)
  end.

Definition handleToggleComplete (id' : string) : M unit :=
  let* σ := Eff.get in
  match user σ with
  | None => Eff.emit (alert "로그인이 필요합니다.")
  | Some u =>
      Eff.try_catch
        (match List.find (λ t, bool_decide (id t = id')) (todos σ) with
         | None => Eff.ret tt
         | Some todo =>
             let* r := await
                         (await_update_completed id' (negb (completed todo)) (User.id u))
                         (update_completed supabase id' (negb (completed todo)) (User.id u)) in
             match r.2 with
             | Some error => Eff.throw error
             | None =>
                 setTodos (toggled id')
             end
         end)
        (λ error,
           Eff.emit (console_error "할 일 상태 변경 실패:" error);;
           Eff.emit (alert "할 일 상태를 변경하는 중 오류가 발생했습니다.");;
           fetchTodos (User.id u))
  end.

End Handlers.
End Page.

(** ** The object the parsing endpoint returns ([TodoSchema]) *)

Module Parsed.
Record t := {
  title : string;
  due_date : option string;
  due_time : option string;
  priority : TodoPriority;
  category : list TodoCategory;
  description : option string
}.
End Parsed.

(** ** src/components/todo/TodoForm.tsx *)

Module Form.

Record State := {
  formData : TodoInput.t;
  selectedCategories : list TodoCategory;
  aiInput : string;
  isAiGenerating : bool
}.

(** What the awaited [fetch] of the parsing endpoint gives: a rejection,
    or a response with its [ok] flag and the outcome of [response.json()]. *)
Inductive FetchAnswer :=
  | fetch_rejected (e : Thrown)
  | response_not_ok (errorData : Thrown + option string) (* the [error] field *)
  | response_ok (result : Thrown + Parsed.t).

Inductive Step :=
  | toast_error (msg : string)
  | toast_success (msg : string)
  | console_error (msg : string) (e : Thrown)
  | await_fetch_parse_todo (input : string)
  | onSubmit (data : TodoInput.t).

Abbreviation M := (Eff.t State Step Thrown) (only parsing).

Local Open Scope eff_scope.

Definition emptyForm : TodoInput.t :=
  {| TodoInput.title := "";
     TodoInput.description := Some "";
     TodoInput.due_date := Some "";
     TodoInput.priority := Some medium;
     TodoInput.category := Some [] |}.

Definition setFormData (v : TodoInput.t) : M unit :=
  Eff.modify (λ σ, {| formData := v; selectedCategories := selectedCategories σ;
                      aiInput := aiInput σ; isAiGenerating := isAiGenerating σ |}).

Definition setSelectedCategories (v : list TodoCategory) : M unit :=
  Eff.modify (λ σ, {| formData := formData σ; selectedCategories := v;
                      aiInput := aiInput σ; isAiGenerating := isAiGenerating σ |}).

Definition setAiInput (v : string) : M unit :=
  Eff.modify (λ σ, {| formData := formData σ;
                      selectedCategories := selectedCategories σ;
                      aiInput := v; isAiGenerating := isAiGenerating σ |}).

Definition setIsAiGenerating (v : bool) : M unit :=
  Eff.modify (λ σ, {| formData := formData σ;
                      selectedCategories := selectedCategories σ;
                      aiInput := aiInput σ; isAiGenerating := v |}).

(** The manual submit of the form (after [e.preventDefault()], which
    only concerns the browser). *)
Definition handleSubmit : M unit :=
  let* σ := Eff.get in
  if negb (JS.truthy (JS.trim (TodoInput.title (formData σ))))
  then Eff.ret tt
  else
    let submitData :=
      {| TodoInput.title := TodoInput.title (formData σ);
         TodoInput.description := TodoInput.description (formData σ);
         TodoInput.due_date := TodoInput.due_date (formData σ);
         TodoInput.priority := TodoInput.priority (formData σ);
         TodoInput.category := Some (selectedCategories σ) |} in
    Eff.emit (onSubmit submitData).

Definition handleReset : M unit :=
  setFormData emptyForm;;
  setSelectedCategories [].

(** The combination of [due_date] and [due_time] into the value of the
    datetime field. *)
Definition dueDateValue (result : Parsed.t) : string :=
  if JS.truthy_opt (Parsed.due_date result)
  then
    let dueDateValue := JS.opt_or (Parsed.due_date result) "" in
    if JS.truthy_opt (Parsed.due_time result)
    then dueDateValue +:+ "T" +:+ JS.opt_or (Parsed.due_time result) ""
    else dueDateValue +:+ "T09:00"
  else "".

Definition generatedData (result : Parsed.t) : TodoInput.t :=
  {| TodoInput.title := JS.str_or (Parsed.title result) "";
     TodoInput.description := Some (JS.opt_str_or (Parsed.description result) "");
     TodoInput.due_date := Some (dueDateValue result);
     TodoInput.priority := Some (Parsed.priority result);
     TodoInput.category := Some (Parsed.category result) |}.

Definition json {A} (b : Thrown + A) : M A :=
  match b with
  | inl e => Eff.throw e
  | inr a => Eff.ret a
  end.

Section Handlers.
Variable fetch_parse_todo : string → FetchAnswer.

Definition handleAiGenerate (autoSubmit : bool) : M unit :=
  let* σ := Eff.get in
  if negb (JS.truthy (JS.trim (aiInput σ)))
  then Eff.emit (toast_error "할 일 내용을 입력해주세요.")
  else
    setIsAiGenerating true;;
    Eff.try_finally
      (Eff.try_catch
         (Eff.emit (await_fetch_parse_todo (aiInput σ));;
          match fetch_parse_todo (aiInput σ) with
          | fetch_rejected e => Eff.throw e
          | response_not_ok errorData =>
              let* error := json errorData in
              Eff.throw (error_obj (JS.opt_str_or error "할 일 생성에 실패했습니다.") None)
          | response_ok result =>
              let* result := json result in
              setFormData (generatedData result);;
              setSelectedCategories (Parsed.category result);;
              if autoSubmit
              then
                Eff.emit (toast_success "AI가 할 일을 생성했습니다!");;
                setAiInput "";;
                Eff.emit (onSubmit (generatedData result));;
                handleReset;;
                Eff.emit (toast_success "할 일이 추가되었습니다!")
              else
                Eff.emit (toast_success
                  "AI가 할 일을 생성했습니다! 확인 후 추가 버튼을 눌러주세요.");;
                setAiInput ""
          end)
         (λ error,
            Eff.emit (console_error "AI generation error:" error);;
            Eff.emit (toast_error
              match error with
              | error_obj message _ => message
              | _ => "할 일 생성 중 오류가 발생했습니다."
              end)))
      (setIsAiGenerating false).

End Handlers.
End Form.

(** ** The parsing endpoint: [POST] *)

Module Route.

(** A parsed JSON document.  Numbers are kept integral: the route only
    asks whether the value is a non-empty string. *)
#[local] Set Warnings "-register-all".
Inductive JSON :=
  | JNull
  | JBool (b : bool)
  | JNumber (n : Z)
  | JString (s : string)
  | JArray (items : list JSON)
  | JObject (fields : list (string * JSON)).

(** A property read on a parsed object: the last binding of the key. *)
Fixpoint get_field (key : string) (fields : list (string * JSON)) : option JSON :=
  match fields with
  | [] => None
  | (k, v) :: rest =>
      match get_field key rest with
      | Some v' => Some v'
      | None => if bool_decide (k = key) then Some v else None
      end
  end.

(** Truthiness; [None] is [undefined]. *)
Definition truthy (v : option JSON) : bool :=
  match v with
  | None | Some JNull => false
  | Some (JBool b) => b
  | Some (JNumber n) => negb (n =? 0)
  | Some (JString s) => JS.truthy s
  | Some (JArray _) | Some (JObject _) => true
  end.

(** [typeof v === "string"], with the string it then is. *)
Definition as_string (v : option JSON) : option string :=
  match v with
  | Some (JString s) => Some s
  | _ => None
  end.

Record Model := {
  name : option string;
  displayName : option string;
  supportedGenerationMethods : option (list string)
}.

(** The answer of the diagnostic request for the list of models. *)
Inductive ModelsAnswer :=
  | models_rejected (e : Thrown)
  | models_not_ok (status : Z)
  | models_ok (modelsData : Thrown + option (list Model)).

(** The surroundings of one request. *)
Record World := {
  GOOGLE_GENERATIVE_AI_API_KEY : option string;  (* process.env *)
  todayStr : string;      (* today.toISOString().split("T")[0] *)
  currentTime : string;   (* today.toTimeString().slice(0, 5) *)
  (* the model call, on the three values the fixed prompt interpolates *)
  generateObject : string → string → string → Thrown + Parsed.t;
  listModels : option string → ModelsAnswer
}.

Inductive ResponseBody :=
  | error_body (error : string)
  | object_body (object : Parsed.t).

Record Response := { body : ResponseBody; status : Z }.

(** [NextResponse.json(body)] and [NextResponse.json(body, { status })]. *)
Definition NextResponse_json (b : ResponseBody) (init : option Z) : Response :=
  {| body := b; status := JS.opt_or init 200 |}.

Inductive Step :=
  | console_error (msg : string) (e : option Thrown)
  | console_error_status (msg : string) (status : Z)
  | console_log (line : string)
  | log_model (supportsGenerateContent : bool) (model : Model)
  | log_methods (supportedMethods : list string)
  | log_compatible (compatibleModels : list string)
  | await_generateObject (todayStr currentTime input : string)
  | await_fetch_models (key : option string).

Abbreviation M := (Eff.t unit Step Thrown) (only parsing).

Local Open Scope eff_scope.

(** [const { input } = v]: reading a property of [null] throws. *)
Definition destructure_input (v : JSON) : M (option JSON) :=
  match v with
  | JNull =>
      Eff.throw (error_obj
        "Cannot destructure property 'input' of '(intermediate value)' as it is null."
        None)
  | JObject fields => Eff.ret (get_field "input" fields)
  | _ => Eff.ret None
  end.

Definition of_result {A} (r : Thrown + A) : M A :=
  match r with
  | inl e => Eff.throw e
  | inr a => Eff.ret a
  end.

Definition has_statusCode_404 (error : Thrown) : bool :=
  match error with
  | error_obj _ (Some 404) | other_obj (Some 404) => true
  | _ => false
  end.

Definition supports_generateContent (model : Model) : bool :=
  match supportedGenerationMethods model with
  | Some methods => bool_decide ("generateContent" ∈ methods)
  | None => false
  end.

(** [s.replace(pat, rep)] for a string pattern: the first occurrence. *)
Fixpoint replace (s pat rep : string) : string :=
  if JS.startsWith pat s
  then rep +:+ String.substring (String.length pat) (String.length s) s
  else
    match s with
    | EmptyString => EmptyString
    | String c s' => String c (replace s' pat rep)
    end.

(** [models.filter(..).map((model) => model.name.replace("models/", ""))] *)
Fixpoint compatibleModels (models : list Model) : M (list string) :=
  match models with
  | [] => Eff.ret []
  | model :: rest =>
      if supports_generateContent model
      then
        match name model with
        | Some n =>
            let* names := compatibleModels rest in
            Eff.ret (replace n "models/" "" :: names)
        | None =>
            Eff.throw (error_obj
              "Cannot read properties of undefined (reading 'replace')" None)
        end
      else compatibleModels rest
  end.

Fixpoint forEach_log (models : list Model) : M unit :=
  match models with
  | [] => Eff.ret tt
  | model :: rest =>
      Eff.emit (log_model (supports_generateContent model) model);;
      (if supports_generateContent model
       then Eff.emit (log_methods (JS.opt_or (supportedGenerationMethods model) []))
       else Eff.ret tt);;
      forEach_log rest
  end.

Section POST.
Variable w : World.

(** The diagnostic listing after a 404 of the model call: the body of
    its [try], and the whole. *)
Definition fetch_and_log_models : M unit :=
  Eff.emit (await_fetch_models (GOOGLE_GENERATIVE_AI_API_KEY w));;
  match listModels w (GOOGLE_GENERATIVE_AI_API_KEY w) with
  | models_rejected e => Eff.throw e
  | models_not_ok st =>
      Eff.emit (console_error_status "Failed to fetch models list:" st)
  | models_ok modelsData =>
      let* modelsData := of_result modelsData in
      Eff.emit (console_log "Available models:");;
      match modelsData with
      | Some models =>
          forEach_log models;;
          let* compatible := compatibleModels models in
          Eff.emit (console_log "Compatible models for generateContent:");;
          Eff.emit (log_compatible compatible)
      | None => Eff.ret tt
      end
  end.

Definition list_available_models : M unit :=
  Eff.emit (console_log "Model not found. Fetching available models...");;
  Eff.try_catch
    fetch_and_log_models
    (λ listError,
       Eff.emit (console_error "Error fetching models list:" (Some listError))).

(** [request_json] is the outcome of [await request.json()]. *)
Definition POST (request_json : Thrown + JSON) : M Response :=
  Eff.try_catch
    (let* parsed := of_result request_json in
     let* input := destructure_input parsed in
     match (if negb (truthy input) then None else as_string input) with
     | None =>
         Eff.ret (NextResponse_json
           (error_body "입력된 텍스트가 올바르지 않습니다.") (Some 400))
     | Some input =>
         if (String.length (JS.trim input) =? 0)%nat
         then
           Eff.ret (NextResponse_json
             (error_body "할 일 내용을 입력해주세요.") (Some 400))
         else if negb (JS.truthy_opt (GOOGLE_GENERATIVE_AI_API_KEY w))
         then
           Eff.emit (console_error "GOOGLE_GENERATIVE_AI_API_KEY is not set" None);;
           Eff.ret (NextResponse_json
             (error_body "AI 서비스가 설정되지 않았습니다.") (Some 500))
         else
           Eff.emit (await_generateObject (todayStr w) (currentTime w) input);;
           let* object := of_result (generateObject w (todayStr w) (currentTime w) input) in
           Eff.ret (NextResponse_json (object_body object) None)
     end)
    (λ error,
       Eff.emit (console_error "Parse todo error:" (Some error));;
       (if has_statusCode_404 error then list_available_models else Eff.ret tt);;
       match error with
       | error_obj message _ =>
           Eff.ret (NextResponse_json
             (error_body ("할 일 파싱 중 오류가 발생했습니다: " +:+ message)) (Some 500))
       | _ =>
           Eff.ret (NextResponse_json
             (error_body "할 일 파싱 중 알 수 없는 오류가 발생했습니다.") (Some 500))
       end).

End POST.
End Route.

(** ** A host to run the program on

    A runtime in the UTC time zone: dates in the date-time string format
    with a full date ([YYYY-MM-DD], optionally [THH:mm], [:ss], [.sss] and
    [Z] or a [±HH:mm] offset) and no other format, case mapping of the
    ASCII letters, and comparison of strings byte by byte. *)

Module Host.

Definition digit (c : ascii) : option Z :=
  let n := Z.of_N (N_of_ascii c) in
  if (48 <=? n) && (n <=? 57) then Some (n - 48) else None.

Fixpoint digits (n : nat) (acc : Z) (l : list ascii) : option (Z * list ascii) :=
  match n, l with
  | O, _ => Some (acc, l)
  | S n', c :: l' => d ← digit c; digits n' (acc * 10 + d) l'
  | S _, [] => None
  end.

Definition expect (c : ascii) (l : list ascii) : option (list ascii) :=
  match l with
  | c' :: l' => if Ascii.eqb c c' then Some l' else None
  | [] => None
  end.

Definition leap (y : Z) : bool :=
  (y mod 4 =? 0) && (negb (y mod 100 =? 0) || (y mod 400 =? 0)).

Definition days_in_month (y m : Z) : Z :=
  if m =? 2 then (if leap y then 29 else 28)
  else if (m =? 4) || (m =? 6) || (m =? 9) || (m =? 11) then 30
  else 31.

(** Days from 1970-01-01 to the given civil date. *)
Definition days_from_civil (y m d : Z) : Z :=
  let y' := if m <=? 2 then y - 1 else y in
  let era := y' / 400 in
  let yoe := y' - era * 400 in
  let mp := (m + 9) mod 12 in
  let doy := (153 * mp + 2) / 5 + d - 1 in
  let doe := yoe * 365 + yoe / 4 - yoe / 100 + doy in
  era * 146097 + doe - 719468.

Definition parse_offset (l : list ascii) : option Z :=
  match l with
  | [] => Some 0
  | c :: l' =>
      if Ascii.eqb c "Z" then (if bool_decide (l' = []) then Some 0 else None)
      else
        sign ← (if Ascii.eqb c "+" then Some 1
                else if Ascii.eqb c "-" then Some (-1) else None);
        '(oh, l1) ← digits 2 0 l';
        l2 ← expect ":" l1;
        '(om, l3) ← digits 2 0 l2;
        if bool_decide (l3 = []) && (oh <? 24) && (om <? 60)
        then Some (sign * (oh * 60 + om))
        else None
  end.

Definition parse_time (l : list ascii) : option Z :=
  '(hh, l1) ← digits 2 0 l;
  l2 ← expect ":" l1;
  '(mm, l3) ← digits 2 0 l2;
  '(ss, l4) ← match l3 with
              | c :: l' => if Ascii.eqb c ":" then digits 2 0 l' else Some (0, l3)
              | [] => Some (0, l3)
              end;
  '(ms, l5) ← match l4 with
              | c :: l' => if Ascii.eqb c "." then digits 3 0 l' else Some (0, l4)
              | [] => Some (0, l4)
              end;
  offset ← parse_offset l5;
  if ((hh <? 24) && (mm <? 60) && (ss <? 60)) ||
     ((hh =? 24) && (mm =? 0) && (ss =? 0) && (ms =? 0))
  then Some (hh * 3600000 + mm * 60000 + ss * 1000 + ms - offset * 60000)
  else None.

Definition parse (l : list ascii) : option Z :=
  '(y, l1) ← digits 4 0 l;
  l2 ← expect "-" l1;
  '(m, l3) ← digits 2 0 l2;
  l4 ← expect "-" l3;
  '(d, l5) ← digits 2 0 l4;
  if (1 <=? m) && (m <=? 12) && (1 <=? d) && (d <=? days_in_month y m)
  then
    let day := days_from_civil y m d * 86400000 in
    match l5 with
    | [] => Some day
    | c :: l6 => if Ascii.eqb c "T" then t ← parse_time l6; Some (day + t) else None
    end
  else None.

Definition Date_parse (s : string) : JS.Num :=
  match parse (String.list_ascii_of_string s) with
  | Some t => JS.Int t
  | None => JS.NaN
  end.

Definition lower (c : ascii) : ascii :=
  let n := N_of_ascii c in
  if ((65 <=? n) && (n <=? 90))%N then ascii_of_N (n + 32) else c.

Fixpoint toLowerCase (s : string) : string :=
  match s with
  | EmptyString => EmptyString
  | String c s' => String (lower c) (toLowerCase s')
  end.

Fixpoint localeCompare (a b : string) : Z :=
  match a, b with
  | EmptyString, EmptyString => 0
  | EmptyString, String _ _ => -1
  | String _ _, EmptyString => 1
  | String x a', String y b' =>
      match N.compare (N_of_ascii x) (N_of_ascii y) with
      | Lt => -1
      | Gt => 1
      | Eq => localeCompare a' b'
      end
  end.

Definition utc : JS.Runtime :=
  {| JS.Date_parse := Date_parse;
     JS.toLowerCase := toLowerCase;
     JS.localeCompare := localeCompare |}.

End Host.

(** ** Sample data *)

Module Sample.

(** 2024-02-01T00:00:00Z *)
Definition now : Z := 1706745600000.

Definition rent : Todo :=
  {| id := "1"; user_id := "u1"; title := "Pay the Rent";
     description := Some "before the landlord calls";
     created_date := "2024-01-01T08:00:00+00:00";
     due_date := Some "2024-01-02T10:00:00+00:00";
     priority := Some high; category := Some [personal];
     completed := false |}.

Definition report : Todo :=
  {| id := "2"; user_id := "u1"; title := "Quarterly report";
     description := None;
     created_date := "2024-01-05T08:00:00+00:00";
     due_date := Some "2024-03-01T09:00:00+00:00";
     priority := None; category := Some [work];
     completed := false |}.

Definition reading : Todo :=
  {| id := "3"; user_id := "u1"; title := "Read the rental contract";
     description := Some "no hurry";
     created_date := "2024-01-09T08:00:00+00:00";
     due_date := None;
     priority := Some low; category := Some [personal; study];
     completed := false |}.

(** A record whose due date is not a date. *)
Definition someday : Todo :=
  {| id := "4"; user_id := "u1"; title := "Learn to sail";
     description := None;
     created_date := "2024-01-09T09:00:00+00:00";
     due_date := Some "someday";
     priority := Some low; category := None;
     completed := false |}.

Definition todos : list Todo := [reading; report; rent].

Definition user : User.t := {| User.id := "u1"; User.email := Some "u1@example.com" |}.

Definition page : Page.State :=
  {| Page.user := Some user; Page.todos := todos; Page.editingTodo := None;
     Page.isLoadingTodos := false; Page.isFormLoading := false |}.

(** A server that confirms every call, and one whose updates fail. *)
Definition confirming : Page.Supabase :=
  {| Page.select_todos := λ _, Page.answered (Some todos) None;
     Page.update_completed := λ _ _ _, Page.answered None None;
     Page.update_fields := λ _ _ _, Page.answered None None;
     Page.insert_todo := λ _, Page.answered None None |}.

Definition failing : Page.Supabase :=
  {| Page.select_todos := λ _, Page.answered (Some todos) None;
     Page.update_completed := λ _ _ _,
       Page.answered None (Some (other_obj (Some 503)));
     Page.update_fields := λ _ _ _, Page.answered None None;
     Page.insert_todo := λ _, Page.answered None None |}.

Definition store : gmap nat (list Todo) := {[ 7%nat := todos ]}.

(** Two objects that satisfy [TodoSchema]. *)
Definition meeting : Parsed.t :=
  {| Parsed.title := "팀 회의 준비";
     Parsed.due_date := Some "2024-01-02"; Parsed.due_time := Some "10:00";
     Parsed.priority := medium; Parsed.category := [work];
     Parsed.description := None |}.

Definition untitled : Parsed.t :=
  {| Parsed.title := "";
     Parsed.due_date := Some "2024-01-02"; Parsed.due_time := None;
     Parsed.priority := medium; Parsed.category := [];
     Parsed.description := Some "내일" |}.

Definition form : Form.State :=
  {| Form.formData := Form.emptyForm; Form.selectedCategories := [];
     Form.aiInput := "내일 오전 10시에 팀 회의 준비";
     Form.isAiGenerating := false |}.

(** An endpoint that answers every request with [r]. *)
Definition endpoint (r : Parsed.t) : string → Form.FetchAnswer :=
  λ _, Form.response_ok (inr r).


End Sample.

(** ** TodoCard: what a card shows of a task *)

Section Card.
Context {rt : JS.Runtime}.

(** [isOverdue()]; [now] is the clock reading of its [new Date()]. *)
Definition isOverdue (todo : Todo) (now : Z) : bool :=
  if negb (JS.truthy_opt (due_date todo)) || completed todo then false
  else JS.lt (new_Date (due_date todo)) (JS.Int now).

Definition getPriorityVariant (priority : option TodoPriority) : string :=
  match priority with
  | Some high => "default"
  | Some medium => "secondary"
  | Some low => "outline"
  | None => "outline"
  end.

Definition getPriorityLabel (priority : option TodoPriority) : string :=
  match priority with
  | Some high => "높음"
  | Some medium => "중간"
  | Some low => "낮음"
  | None => "미설정"
  end.

(** [overdue] is the constant [const overdue = isOverdue()] of the card. *)
Definition getPriorityBorderColor (todo : Todo) (overdue : bool)
    (priority : option TodoPriority) : string :=
  if completed todo then "border-l-gray-300"
  else if overdue then "border-l-destructive"
  else
    match priority with
    | Some high => "border-l-primary border-l-4"
    | Some medium => "border-l-primary/60 border-l-4"
    | Some low => "border-l-primary/30 border-l-4"
    | None => "border-l-muted border-l-4"
    end.

Definition getPriorityBgColor (todo : Todo) (overdue : bool)
    (priority : option TodoPriority) : string :=
  if completed todo then "bg-muted/30"
  else if overdue then "bg-destructive/5"
  else
    match priority with
    | Some high => "bg-primary/5"
    | Some medium => "bg-primary/3"
    | Some low => "bg-primary/2"
    | None => "bg-card"
    end.

(** The badge "지연" and the red date: [overdue && !todo.completed]. *)
Definition showsOverdueBadge (todo : Todo) (now : Z) : bool :=
  isOverdue todo now && negb (completed todo).

(** The priority badge is rendered for a truthy [todo.priority] only. *)
Definition priorityBadge (todo : Todo) : option (string * string) :=
  match priority todo with
  | Some p => Some (getPriorityVariant (Some p), getPriorityLabel (Some p))
  | None => None
  end.

End Card.

(** ** src/app/page.tsx: the other handlers of the page *)

(** The same run with its steps renamed. *)
Definition lift_steps {St Ev Ev' Ex A} (f : Ev → Ev') (m : Eff.t St Ev Ex A)
    : Eff.t St Ev' Ex A :=
  λ σ, match m σ with (tr, σ', o) => (List.map f tr, σ', o) end.

Module Home.

(** Steps of the page beyond those of [Page.Step]. *)
Inductive Step :=
  | page_step (s : Page.Step)
  | confirm (msg : string)
  | await_delete (id : string) (userId : string)
  | await_getUser
  | await_signOut
  | set_user (new : User.t)
  | set_isLoggingOut (new : bool)
  | router_push (path : string)
  | router_refresh
  | console_error_msg (msg : string) (errorMessage : string).

(** The answer of [supabase.auth.signOut()]: [{ error }], or a rejection. *)
Inductive AuthAnswer :=
  | auth_answered (error : option Thrown)
  | auth_rejected (e : Thrown).

(** What the handlers of the page meet besides the table of [Page.Supabase]:
    the answer of the user to a [confirm] box, the delete call, and the
    session. *)
Record World := {
  supabase : Page.Supabase;
  confirm_answer : string → bool;
  delete_todo : string → string → Page.Answer;
  getUser : Thrown + option User.t;
  signOut : AuthAnswer
}.

Abbreviation M := (Eff.t Page.State Step Thrown) (only parsing).

Local Open Scope eff_scope.

Definition lift {A} (m : Eff.t Page.State Page.Step Thrown A) : M A :=
  lift_steps page_step m.

Definition setUser (u : User.t) : M unit :=
  Eff.emit (set_user u);;
  Eff.modify (λ σ, {| Page.user := Some u; Page.todos := Page.todos σ;
                      Page.editingTodo := Page.editingTodo σ;
                      Page.isLoadingTodos := Page.isLoadingTodos σ;
                      Page.isFormLoading := Page.isFormLoading σ |}).

Section Handlers.
Variable w : World.

(** The effect that runs when the page is mounted. *)
Definition checkUserAndFetchTodos : M unit :=
  Eff.emit await_getUser;;
  match getUser w with
  | inl e => Eff.throw e
  | inr None => Eff.emit (router_push "/login")
  | inr (Some user) =>
      setUser user;;
      lift (Page.fetchTodos (supabase w) (User.id user))
  end.

Definition handleEdit (todo : Todo) : M unit :=
  lift (Page.setEditingTodo (Some todo)).

Definition handleCancelEdit : M unit :=
  lift (Page.setEditingTodo None).

Definition handleDelete (id' : string) : M unit :=
  let* σ := Eff.get in
  match Page.user σ with
  | None => Eff.emit (page_step (Page.alert "로그인이 필요합니다."))
  | Some u =>
      Eff.emit (confirm "정말 삭제하시겠습니까?");;
      if negb (confirm_answer w "정말 삭제하시겠습니까?")
      then Eff.ret tt
      else
        Eff.try_catch
          (Eff.emit (await_delete id' (User.id u));;
           let* error :=
             match delete_todo w id' (User.id u) with
             | Page.answered _ error => Eff.ret error
             | Page.rejected e => Eff.throw e
             end in
           match error with
           | Some error => Eff.throw error
           | None =>
               lift (Page.setTodos
                 (List.filter (λ todo, negb (bool_decide (id todo = id')))));;
               match Page.editingTodo σ with
               | Some editing =>
                   if bool_decide (id editing = id')
                   then lift (Page.setEditingTodo None)
                   else Eff.ret tt
               | None => Eff.ret tt
               end
           end)
          (λ error,
             Eff.emit (page_step (Page.console_error "할 일 삭제 실패:" error));;
             Eff.emit (page_step (Page.alert "할 일을 삭제하는 중 오류가 발생했습니다.")))
  end.

End Handlers.

(** [handleLogout] works on [isLoggingOut] alone. *)
Section Logout.
Variable w : World.

Definition setIsLoggingOut (v : bool) : Eff.t bool Step Thrown unit :=
  Eff.emit (set_isLoggingOut v);;
  Eff.modify (λ _, v).

Definition handleLogout : Eff.t bool Step Thrown unit :=
  Eff.emit (confirm "로그아웃하시겠습니까?");;
  if negb (confirm_answer w "로그아웃하시겠습니까?")
  then Eff.ret tt
  else
    setIsLoggingOut true;;
    Eff.try_finally
      (Eff.try_catch
         (Eff.emit await_signOut;;
          let* signOutError :=
            match signOut w with
            | auth_answered error => Eff.ret error
            | auth_rejected e => Eff.throw e
            end in
          match signOutError with
          | Some e => Eff.throw e
          | None =>
              Eff.emit (router_push "/login");;
              Eff.emit router_refresh
          end)
         (λ err,
            let errorMessage :=
              match err with
              | error_obj message _ => message
              | _ => "로그아웃에 실패했습니다."
              end in
            Eff.emit (console_error_msg "Logout error:" errorMessage);;
            Eff.emit (page_step (Page.alert ("로그아웃 실패: " +:+ errorMessage)))))
      (setIsLoggingOut false).

End Logout.
End Home.

(** ** src/components/todo/TodoForm.tsx: the fields of the form *)

Module FormFields.

Local Open Scope eff_scope.

(** The calls of [handleChange] the form makes: a field with its value. *)
Inductive Change :=
  | change_title (value : string)
  | change_description (value : string)
  | change_due_date (value : string)
  | change_priority (value : TodoPriority)
  | change_category (value : list TodoCategory).

(** [{ ...prev, [field]: value }] *)
Definition changed (c : Change) (prev : TodoInput.t) : TodoInput.t :=
  match c with
  | change_title v =>
      {| TodoInput.title := v;
         TodoInput.description := TodoInput.description prev;
         TodoInput.due_date := TodoInput.due_date prev;
         TodoInput.priority := TodoInput.priority prev;
         TodoInput.category := TodoInput.category prev |}
  | change_description v =>
      {| TodoInput.title := TodoInput.title prev;
         TodoInput.description := Some v;
         TodoInput.due_date := TodoInput.due_date prev;
         TodoInput.priority := TodoInput.priority prev;
         TodoInput.category := TodoInput.category prev |}
  | change_due_date v =>
      {| TodoInput.title := TodoInput.title prev;
         TodoInput.description := TodoInput.description prev;
         TodoInput.due_date := Some v;
         TodoInput.priority := TodoInput.priority prev;
         TodoInput.category := TodoInput.category prev |}
  | change_priority v =>
      {| TodoInput.title := TodoInput.title prev;
         TodoInput.description := TodoInput.description prev;
         TodoInput.due_date := TodoInput.due_date prev;
         TodoInput.priority := Some v;
         TodoInput.category := TodoInput.category prev |}
  | change_category v =>
      {| TodoInput.title := TodoInput.title prev;
         TodoInput.description := TodoInput.description prev;
         TodoInput.due_date := TodoInput.due_date prev;
         TodoInput.priority := TodoInput.priority prev;
         TodoInput.category := Some v |}
  end.

Definition handleChange (c : Change) : Form.M unit :=
  let* σ := Eff.get in
  Form.setFormData (changed c (Form.formData σ)).

(** [prev.includes(category) ? prev.filter((c) => c !== category)
                              : [...prev, category]] *)
Definition toggledCategories (category : TodoCategory) (prev : list TodoCategory)
    : list TodoCategory :=
  if bool_decide (category ∈ prev)
  then List.filter (λ c, negb (bool_decide (c = category))) prev
  else prev ++ [category].

Definition toggleCategory (category : TodoCategory) : Form.M unit :=
  let* σ := Eff.get in
  let newCategories := toggledCategories category (Form.selectedCategories σ) in
  handleChange (change_category newCategories);;
  Form.setSelectedCategories newCategories.

Section Effect.
(** [new Date(s).toISOString()]: the UTC date-time string of the date, a
    [RangeError] for an invalid date. *)
Variable Date_toISOString : string → Thrown + string.

(** The effect on [initialData]: a task opened for editing fills the form. *)
Definition loadInitialData (initialData : option Todo) : Form.M unit :=
  match initialData with
  | None => Eff.ret tt
  | Some initialData =>
      let* due :=
        if JS.truthy_opt (due_date initialData)
        then
          let* iso := Form.json (Date_toISOString (JS.opt_or (due_date initialData) "")) in
          Eff.ret (String.substring 0 16 iso)
        else Eff.ret "" in
      Form.setFormData
        {| TodoInput.title := title initialData;
           TodoInput.description := Some (JS.opt_str_or (description initialData) "");
           TodoInput.due_date := Some due;
           TodoInput.priority := Some (JS.opt_or (priority initialData) medium);
           TodoInput.category := Some (JS.opt_or (category initialData) []) |};;
      Form.setSelectedCategories (JS.opt_or (category initialData) [])
  end.

End Effect.
End FormFields.

(** ** LogoutButton *)

Module LogoutButton.

Record State := { isLoading : bool; error : option string }.

Abbreviation M := (Eff.t State Home.Step Thrown) (only parsing).

Local Open Scope eff_scope.

Definition setIsLoading (v : bool) : M unit :=
  Eff.modify (λ σ, {| isLoading := v; error := error σ |}).

Definition setError (v : option string) : M unit :=
  Eff.modify (λ σ, {| isLoading := isLoading σ; error := v |}).

Definition handleLogout (signOut : Home.AuthAnswer) : M unit :=
  setIsLoading true;;
  setError None;;
  Eff.try_finally
    (Eff.try_catch
       (Eff.emit Home.await_signOut;;
        let* signOutError :=
          match signOut with
          | Home.auth_answered error => Eff.ret error
          | Home.auth_rejected e => Eff.throw e
          end in
        match signOutError with
        | Some e => Eff.throw e
        | None =>
            Eff.emit (Home.router_push "/login");;
            Eff.emit Home.router_refresh
        end)
       (λ err,
          let errorMessage :=
            match err with
            | error_obj message _ => message
            | _ => "로그아웃에 실패했습니다."
            end in
          setError (Some errorMessage);;
          Eff.emit (Home.console_error_msg "Logout error:" errorMessage);;
          Eff.emit (Home.page_step (Page.alert ("로그아웃 실패: " +:+ errorMessage)))))
    (setIsLoading false).

End LogoutButton.

(** ** The sign-up and sign-in pages *)

Module Auth.

(** [s.length]: the number of UTF-16 code units of a string given by its
    UTF-8 bytes (a four-byte sequence is a surrogate pair). *)
Definition utf16_units (c : ascii) : nat :=
  let n := N_of_ascii c in
  if (n <? 128)%N then 1%nat
  else if (n <? 192)%N then 0%nat
  else if (n <? 240)%N then 1%nat
  else 2%nat.

Fixpoint length (s : string) : nat :=
  match s with
  | EmptyString => 0%nat
  | String c s' => (utf16_units c + length s')%nat
  end.

Inductive Step :=
  | await_signUp (email password : string)
  | await_signInWithPassword (email password : string)
  | setTimeout_push (path : string) (ms : Z)
  | router_push (path : string)
  | router_refresh.

Record AuthUser := {
  identities : option nat;              (* the length of the array, if any *)
  confirmation_sent_at : option string
}.

(** [{ data: { user, session }, error }], or a rejection. *)
Inductive Answer :=
  | answered (user : option AuthUser) (session : bool) (error : option Thrown)
  | rejected (e : Thrown).

End Auth.

Module Signup.

Record State := {
  email : string;
  password : string;
  confirmPassword : string;
  isLoading : bool;
  error : option string;
  successMessage : option string
}.

Abbreviation M := (Eff.t State Auth.Step Thrown) (only parsing).

Local Open Scope eff_scope.

Definition setIsLoading (v : bool) : M unit :=
  Eff.modify (λ σ, {| email := email σ; password := password σ;
                      confirmPassword := confirmPassword σ; isLoading := v;
                      error := error σ; successMessage := successMessage σ |}).

Definition setError (v : option string) : M unit :=
  Eff.modify (λ σ, {| email := email σ; password := password σ;
                      confirmPassword := confirmPassword σ;
                      isLoading := isLoading σ;
                      error := v; successMessage := successMessage σ |}).

Definition setSuccessMessage (v : option string) : M unit :=
  Eff.modify (λ σ, {| email := email σ; password := password σ;
                      confirmPassword := confirmPassword σ;
                      isLoading := isLoading σ;
                      error := error σ; successMessage := v |}).

(** [password] and [confirmPassword] are those of the render the handler
    belongs to. *)
Definition validatePasswords (password confirmPassword : string) : M bool :=
  if negb (bool_decide (password = confirmPassword))
  then setError (Some "비밀번호가 일치하지 않습니다.");; Eff.ret false
  else if (Auth.length password <? 6)%nat
  then setError (Some "비밀번호는 최소 6자 이상이어야 합니다.");; Eff.ret false
  else Eff.ret true.

Section Handlers.
Context {rt : JS.Runtime}.
Variable signUp : string → string → Auth.Answer.

(** The message the [catch] block shows for what was thrown. *)
Definition errorFor (err : Thrown) : string :=
  match err with
  | error_obj message _ =>
      let errorMessage := JS.toLowerCase message in
      if JS.includes errorMessage "user already registered"
      then "이미 가입된 이메일 주소입니다."
      else if JS.includes errorMessage "invalid email"
      then "유효하지 않은 이메일 주소입니다."
      else if JS.includes errorMessage "password"
      then "비밀번호가 요구사항을 충족하지 않습니다."
      else "회원가입 중 오류가 발생했습니다. 다시 시도해주세요."
  | _ => "알 수 없는 오류가 발생했습니다."
  end.

Definition handleSubmit : M unit :=
  let* σ := Eff.get in
  setError None;;
  setSuccessMessage None;;
  let* valid := validatePasswords (password σ) (confirmPassword σ) in
  if negb valid then Eff.ret tt
  else
    setIsLoading true;;
    Eff.try_finally
      (Eff.try_catch
         (Eff.emit (Auth.await_signUp (email σ) (password σ));;
          match signUp (email σ) (password σ) with
          | Auth.rejected e => Eff.throw e
          | Auth.answered _ _ (Some signUpError) => Eff.throw signUpError
          | Auth.answered None _ None => Eff.ret tt
          | Auth.answered (Some user) session None =>
              if match Auth.identities user with
                 | Some n => (n =? 0)%nat
                 | None => false
                 end
              then setError (Some "이미 가입된 이메일 주소입니다.")
              else if JS.truthy_opt (Auth.confirmation_sent_at user) || negb session
              then
                setSuccessMessage (Some
                  "회원가입이 완료되었습니다! 이메일을 확인하여 계정을 활성화해주세요.");;
                Eff.emit (Auth.setTimeout_push "/login" 3000)
              else
                setSuccessMessage (Some "회원가입이 완료되었습니다!");;
                Eff.emit (Auth.setTimeout_push "/" 1500)
          end)
         (λ err, setError (Some (errorFor err))))
      (setIsLoading false).

End Handlers.
End Signup.

Module Login.

Record State := {
  email : string;
  password : string;
  isLoading : bool;
  error : option string
}.

Abbreviation M := (Eff.t State Auth.Step Thrown) (only parsing).

Local Open Scope eff_scope.

Definition setIsLoading (v : bool) : M unit :=
  Eff.modify (λ σ, {| email := email σ; password := password σ;
                      isLoading := v; error := error σ |}).

Definition setError (v : option string) : M unit :=
  Eff.modify (λ σ, {| email := email σ; password := password σ;
                      isLoading := isLoading σ; error := v |}).

Section Handlers.
Context {rt : JS.Runtime}.
Variable signInWithPassword : string → string → Auth.Answer.

(** The message the [catch] block shows for what was thrown. *)
Definition errorFor (err : Thrown) : string :=
  match err with
  | error_obj message _ =>
      let errorMessage := JS.toLowerCase message in
      if JS.includes errorMessage "invalid login credentials" ||
         JS.includes errorMessage "invalid credentials" ||
         JS.includes errorMessage "email not confirmed"
      then "이메일 또는 비밀번호가 올바르지 않습니다."
      else if JS.includes errorMessage "email not confirmed"
      then "이메일 인증이 완료되지 않았습니다. 이메일을 확인해주세요."
      else if JS.includes errorMessage "too many requests"
      then "너무 많은 로그인 시도가 있었습니다. 잠시 후 다시 시도해주세요."
      else "로그인 중 오류가 발생했습니다. 다시 시도해주세요."
  | _ => "알 수 없는 오류가 발생했습니다."
  end.

Definition handleSubmit : M unit :=
  let* σ := Eff.get in
  setError None;;
  setIsLoading true;;
  Eff.try_finally
    (Eff.try_catch
       (Eff.emit (Auth.await_signInWithPassword (email σ) (password σ));;
        match signInWithPassword (email σ) (password σ) with
        | Auth.rejected e => Eff.throw e
        | Auth.answered _ _ (Some signInError) => Eff.throw signInError
        | Auth.answered _ session None =>
            if session
            then Eff.emit (Auth.router_push "/");; Eff.emit Auth.router_refresh
            else Eff.ret tt
        end)
       (λ err, setError (Some (errorFor err))))
    (setIsLoading false).

End Handlers.
End Login.

(** ** The list view: sort keys and the list before sorting *)

Section ListViewKeys.
Context {rt : JS.Runtime}.

(** [priorityOrder[t.priority || "low"]] *)
Definition priority_rank (t : Todo) : Z :=
  priorityOrder (JS.opt_or (priority t) low).

(** The creation date of a task is a date. *)
Definition valid_created_date (t : Todo) : bool :=
  match JS.Date_parse (created_date t) with
  | JS.Int _ => true
  | JS.NaN => false
  end.

(** The time value of the creation date ([0] when it is not a date). *)
Definition created_key (t : Todo) : Z :=
  match JS.Date_parse (created_date t) with
  | JS.Int ms => ms
  | JS.NaN => 0
  end.

(** What [filtered] holds when [sort] is reached. *)
Definition filtered
    (l : list Todo) (searchQuery : string)
    (statusFilter : Select TodoStatus) (priorityFilter : Select TodoPriority)
    (now : Z) : list Todo :=
  let l1 :=
    if JS.truthy (JS.trim searchQuery)
    then List.filter (searchFn (JS.toLowerCase searchQuery)) l
    else l in
  let l2 :=
    match statusFilter with
    | only st => List.filter (statusFn st now) l1
    | all => l1
    end in
  match priorityFilter with
  | only p => List.filter (priorityFn p) l2
  | all => l2
  end.

End ListViewKeys.

(** ** The rows the submit handler of the page sends *)

Module Rows.


(** The fields of an update. *)
Definition updated (data : TodoInput.t) : Page.Row :=
  {| Page.row_user_id := None;
     Page.row_title := TodoInput.title data;
     Page.row_description := Page.or_null (TodoInput.description data);
     Page.row_due_date := Page.or_null (TodoInput.due_date data);
     Page.row_priority := JS.opt_or (TodoInput.priority data) medium;
     Page.row_category := JS.opt_or (TodoInput.category data) [];
     Page.row_completed := None |}.


Definition editing (v : option Todo) (σ : Page.State) : Page.State :=
  {| Page.user := Page.user σ; Page.todos := Page.todos σ;
     Page.editingTodo := v;
     Page.isLoadingTodos := Page.isLoadingTodos σ;
     Page.isFormLoading := Page.isFormLoading σ |}.

(** An answer of the server that reports a failure with [e]. *)
Definition failed (a : Page.Answer) (e : Thrown) : Prop :=
  a = Page.rejected e ∨ ∃ data, a = Page.answered data (Some e).

End Rows.

(** ** The answers of the parsing endpoint that the form treats as failures *)

Module AiAnswer.

(** What is thrown inside the [try] of [handleAiGenerate] for an answer,
    if anything. *)
Definition thrown (a : Form.FetchAnswer) : option Thrown :=
  match a with
  | Form.fetch_rejected e => Some e
  | Form.response_not_ok (inl e) => Some e
  | Form.response_not_ok (inr error) =>
      Some (error_obj (JS.opt_str_or error "할 일 생성에 실패했습니다.") None)
  | Form.response_ok (inl e) => Some e
  | Form.response_ok (inr _) => None
  end.

(** The text of the error toast for what was thrown. *)
Definition message (e : Thrown) : string :=
  match e with
  | error_obj message _ => message
  | _ => "할 일 생성 중 오류가 발생했습니다."
  end.

(** The state with [isAiGenerating] set. *)
Definition generating (v : bool) (σ : Form.State) : Form.State :=
  {| Form.formData := Form.formData σ;
     Form.selectedCategories := Form.selectedCategories σ;
     Form.aiInput := Form.aiInput σ;
     Form.isAiGenerating := v |}.

End AiAnswer.

(** ** The world of a request with another answer to the model listing *)

Module Worlds.

Definition with_listing (listModels : option string → Route.ModelsAnswer)
    (w : Route.World) : Route.World :=
  {| Route.GOOGLE_GENERATIVE_AI_API_KEY := Route.GOOGLE_GENERATIVE_AI_API_KEY w;
     Route.todayStr := Route.todayStr w;
     Route.currentTime := Route.currentTime w;
     Route.generateObject := Route.generateObject w;
     Route.listModels := listModels |}.

(** The input of a request that the route hands to the model: a body
    that is an object whose [input] is a string that is not blank. *)
Definition good_input (request_json : Thrown + Route.JSON) : option string :=
  match request_json with
  | inr (Route.JObject fields) =>
      match Route.get_field "input" fields with
      | Some (Route.JString s) => if JS.truthy (JS.trim s) then Some s else None
      | _ => None
      end
  | _ => None
  end.

(** The response of the [catch] block for what was thrown. *)
Definition failure_response (error : Thrown) : Route.Response :=
  match error with
  | error_obj message _ =>
      {| Route.body :=
           Route.error_body ("할 일 파싱 중 오류가 발생했습니다: " +:+ message);
         Route.status := 500 |}
  | _ =>
      {| Route.body := Route.error_body "할 일 파싱 중 알 수 없는 오류가 발생했습니다.";
         Route.status := 500 |}
  end.

Local Open Scope eff_scope.

(** The two blocks of [Route.POST], named. *)
Definition try_block (w : Route.World) (request_json : Thrown + Route.JSON)
    : Eff.t unit Route.Step Thrown Route.Response :=
  let* parsed := Route.of_result request_json in
  let* input := Route.destructure_input parsed in
  match (if negb (Route.truthy input) then None else Route.as_string input) with
  | None =>
      Eff.ret (Route.NextResponse_json
        (Route.error_body "입력된 텍스트가 올바르지 않습니다.") (Some 400))
  | Some input =>
      if (String.length (JS.trim input) =? 0)%nat
      then
        Eff.ret (Route.NextResponse_json
          (Route.error_body "할 일 내용을 입력해주세요.") (Some 400))
      else if negb (JS.truthy_opt (Route.GOOGLE_GENERATIVE_AI_API_KEY w))
      then
        Eff.emit (Route.console_error "GOOGLE_GENERATIVE_AI_API_KEY is not set" None);;
        Eff.ret (Route.NextResponse_json
          (Route.error_body "AI 서비스가 설정되지 않았습니다.") (Some 500))
      else
        Eff.emit (Route.await_generateObject (Route.todayStr w)
                    (Route.currentTime w) input);;
        let* object := Route.of_result
                         (Route.generateObject w (Route.todayStr w)
                            (Route.currentTime w) input) in
        Eff.ret (Route.NextResponse_json (Route.object_body object) None)
  end.

Definition catch_block (w : Route.World) (error : Thrown)
    : Eff.t unit Route.Step Thrown Route.Response :=
  Eff.emit (Route.console_error "Parse todo error:" (Some error));;
  (if Route.has_statusCode_404 error
   then Route.list_available_models w else Eff.ret ());;
  match error with
  | error_obj message _ =>
      Eff.ret (Route.NextResponse_json
        (Route.error_body ("할 일 파싱 중 오류가 발생했습니다: " +:+ message))
        (Some 500))
  | _ =>
      Eff.ret (Route.NextResponse_json
        (Route.error_body "할 일 파싱 중 알 수 없는 오류가 발생했습니다.")
        (Some 500))
  end.

(** The steps that only write to the log. *)
Definition logs (s : Route.Step) : bool :=
  match s with
  | Route.await_generateObject _ _ _ | Route.await_fetch_models _ => false
  | _ => true
  end.

End Worlds.

(** ** Further sample data *)

Module HostDate.

Definition digit_char (d : Z) : ascii := ascii_of_N (Z.to_N (48 + d mod 10)).

(** [n] decimal digits of [z], most significant first. *)
Fixpoint padded (n : nat) (z : Z) : string :=
  match n with
  | O => EmptyString
  | S n' => padded n' (z / 10) +:+ String (digit_char z) EmptyString
  end.

(** The civil date of a day count from 1970-01-01. *)
Definition civil_from_days (days : Z) : Z * Z * Z :=
  let z := days + 719468 in
  let era := z / 146097 in
  let doe := z - era * 146097 in
  let yoe := (doe - doe / 1460 + doe / 36524 - doe / 146096) / 365 in
  let doy := doe - (365 * yoe + yoe / 4 - yoe / 100) in
  let mp := (5 * doy + 2) / 153 in
  let d := doy - (153 * mp + 2) / 5 + 1 in
  let m := if mp <? 10 then mp + 3 else mp - 9 in
  let y := yoe + era * 400 + (if m <=? 2 then 1 else 0) in
  (y, m, d).

(** [new Date(s).toISOString()] of the host of [Host.utc]. *)
Definition toISOString (s : string) : Thrown + string :=
  match Host.Date_parse s with
  | JS.NaN => inl (error_obj "Invalid time value" None)
  | JS.Int t =>
      let '(y, m, d) := civil_from_days (t / 86400000) in
      let ms := t mod 86400000 in
      let year :=
        if (0 <=? y) && (y <=? 9999) then padded 4 y
        else (if y <? 0 then "-" else "+") +:+ padded 6 (Z.abs y) in
      inr (year +:+ "-" +:+ padded 2 m +:+ "-" +:+ padded 2 d +:+ "T" +:+
           padded 2 (ms / 3600000) +:+ ":" +:+ padded 2 (ms / 60000 mod 60) +:+
           ":" +:+ padded 2 (ms / 1000 mod 60) +:+ "." +:+ padded 3 (ms mod 1000)
           +:+ "Z")
  end.

End HostDate.

Module Samples.

Definition errand : Todo :=
  {| id := "5"; user_id := "u1"; title := "Buy stamps";
     description := None;
     created_date := "2024-01-10T08:00:00+00:00";
     due_date := None;
     priority := Some medium; category := None;
     completed := false |}.

Definition todos : list Todo :=
  [Sample.reading; Sample.report; errand; Sample.rent].

Definition input : TodoInput.t :=
  {| TodoInput.title := "Water the plants";
     TodoInput.description := Some "";
     TodoInput.due_date := Some "2024-02-03T09:00";
     TodoInput.priority := None;
     TodoInput.category := Some [personal] |}.


(** The user says yes to every question and the server confirms. *)
Definition home : Home.World :=
  {| Home.supabase := Sample.confirming;
     Home.confirm_answer := λ _, true;
     Home.delete_todo := λ _ _, Page.answered None None;
     Home.getUser := inr (Some Sample.user);
     Home.signOut := Home.auth_answered None |}.


End Samples.

(** * Properties *)

Example Date_parse_epoch : Host.Date_parse "1970-01-01T00:00:00Z" = JS.Int 0.
Proof. reflexivity. Qed.

Example Date_parse_2024 :
  Host.Date_parse "2024-01-02T10:00:00+00:00" = JS.Int 1704189600000.
Proof. reflexivity. Qed.

Example Date_parse_offset :
  Host.Date_parse "2024-01-02T19:00:00.250+09:00" = JS.Int 1704189600250.
Proof. reflexivity. Qed.

Example Date_parse_invalid : Host.Date_parse "someday" = JS.NaN.
Proof. reflexivity. Qed.

Example trim_example : JS.trim "  buy milk 	 " = "buy milk".
Proof. reflexivity. Qed.

(** ** Strings *)

Lemma append_cons (c : ascii) (s t : string) :
  String c s +:+ t = String c (s +:+ t).
Proof. reflexivity. Qed.

Lemma append_nil (t : string) : "" +:+ t = t.
Proof. reflexivity. Qed.

Lemma startsWith_spec (q s : string) :
  JS.startsWith q s = true ↔ ∃ post, s = q +:+ post.
Proof.
  revert s. induction q as [|a q IH]; intros s; simpl.
  - split; [intros _; by exists s | done].
  - destruct s as [|b s].
    + split; [done | intros [post Hpost]; discriminate].
    + setoid_rewrite append_cons.
      destruct (Ascii.eqb_spec a b) as [->|Hne].
      * rewrite IH. split; intros [post Hpost]; exists post; congruence.
      * split; [done | intros [post Hpost]; congruence].
Qed.

Lemma includes_spec (s q : string) :
  JS.includes s q = true ↔ ∃ pre post, s = pre +:+ q +:+ post.
Proof.
  induction s as [|c s IH].
  - simpl. rewrite orb_false_r, startsWith_spec. split.
    + intros [post Hpost]. by exists "", post.
    + intros [pre [post Hs]]. destruct pre; [by exists post | discriminate].
  - cbn [JS.includes]. rewrite orb_true_iff, IH, startsWith_spec. split.
    + intros [[post Hpost] | [pre [post Hs]]].
      * by exists "", post.
      * exists (String c pre), post. by rewrite append_cons, Hs.
    + intros [pre [post Hs]]. destruct pre as [|c' pre].
      * left. by exists post.
      * right. exists pre, post. rewrite append_cons in Hs. congruence.
Qed.

(** ** Sorting *)

Lemma insert_Permutation {A} (cmp : A → A → JS.Num) (x : A) (l : list A) :
  Arr.insert cmp x l ≡ₚ x :: l.
Proof.
  induction l as [|y l IH]; simpl; [done|].
  destruct (0 <? Arr.SortCompare cmp x y); [|done].
  rewrite IH. apply Permutation_swap.
Qed.

Lemma sorted_Permutation {A} (cmp : A → A → JS.Num) (l : list A) :
  Arr.sorted cmp l ≡ₚ l.
Proof.
  induction l as [|x l IH]; simpl; [done|].
  by rewrite insert_Permutation, IH.
Qed.

Lemma elem_of_List_filter {A} (p : A → bool) (l : list A) (x : A) :
  x ∈ List.filter p l ↔ x ∈ l ∧ p x = true.
Proof. rewrite !list_elem_of_In. apply filter_In. Qed.

(** ** The list view: which tasks it shows *)

Section ViewMembership.
Context {rt : JS.Runtime}.

Lemma elem_of_view (l : list Todo) (searchQuery : string)
    (statusFilter : Select TodoStatus) (priorityFilter : Select TodoPriority)
    (sortBy : SortBy) (now : Z) (todo : Todo) :
  todo ∈ view l searchQuery statusFilter priorityFilter sortBy now ↔
    todo ∈ l ∧
    (JS.truthy (JS.trim searchQuery) = true →
       searchFn (JS.toLowerCase searchQuery) todo = true) ∧
    (∀ st, statusFilter = only st → statusFn st now todo = true) ∧
    (∀ p, priorityFilter = only p → priorityFn p todo = true).
Proof.
  unfold view. rewrite sorted_Permutation.
  destruct priorityFilter as [|p], statusFilter as [|st],
    (JS.truthy (JS.trim searchQuery));
    rewrite ?elem_of_List_filter;
    intuition (try discriminate; simplify_eq; eauto).
Qed.

End ViewMembership.

(** ** Status buckets *)

Section Status.
Context {rt : JS.Runtime}.

Lemma statusFn_in_progress (todo : Todo) (now : Z) :
  statusFn in_progress now todo = true ↔
    completed todo = false ∧
    (JS.truthy_opt (due_date todo) = false ∨
     ∃ ms, new_Date (due_date todo) = JS.Int ms ∧ now ≤ ms).
Proof.
  unfold statusFn.
  rewrite andb_true_iff, orb_true_iff, !negb_true_iff.
  destruct (new_Date (due_date todo)) as [|ms]; simpl.
  - split.
    + intros [Hc [Hd|?]]; [by auto|done].
    + intros [Hc [Hd|[ms [? _]]]]; [by auto|done].
  - rewrite Z.leb_le. split.
    + intros [Hc [Hd|Hle]]; [by auto|]. split; [done|]. right. by exists ms.
    + intros [Hc [Hd|[ms' [[= <-] Hle]]]]; by auto.
Qed.

Lemma statusFn_overdue (todo : Todo) (now : Z) :
  statusFn overdue now todo = true ↔
    completed todo = false ∧ JS.truthy_opt (due_date todo) = true ∧
    ∃ ms, new_Date (due_date todo) = JS.Int ms ∧ ms < now.
Proof.
  unfold statusFn.
  rewrite !andb_true_iff, !negb_true_iff.
  destruct (new_Date (due_date todo)) as [|ms]; simpl.
  - split.
    + by intros [_ ?].
    + by intros (_ & _ & ms & ? & _).
  - rewrite Z.ltb_lt. split.
    + intros [[Hc Hd] Hlt]. repeat split; [done..|]. by exists ms.
    + intros (Hc & Hd & ms' & [= <-] & Hlt). done.
Qed.

(** C1. At a fixed [now] the three status tests partition the tasks: each
    task (whose due date, if any, is a date) passes exactly one of
    in progress, completed, overdue; in progress is not completed and (no
    due date or due date >= now), completed is the flag, overdue is not
    completed with a due date < now; a task without due date is never
    overdue. *)
Theorem status_filter_partition (todo : Todo) (now : Z) :
  valid_due_date todo = true →
  (exists! st, statusFn st now todo = true) ∧
  (statusFn in_progress now todo = true ↔
     completed todo = false ∧
     (JS.truthy_opt (due_date todo) = false ∨
      ∃ ms, new_Date (due_date todo) = JS.Int ms ∧ now ≤ ms)) ∧
  (statusFn done_ now todo = true ↔ completed todo = true) ∧
  (statusFn overdue now todo = true ↔
     completed todo = false ∧ JS.truthy_opt (due_date todo) = true ∧
     ∃ ms, new_Date (due_date todo) = JS.Int ms ∧ ms < now) ∧
  (JS.truthy_opt (due_date todo) = false → statusFn overdue now todo = false).
Proof.
  intros Hvalid. split; [|split; [|split; [|split]]].
  - unfold valid_due_date in Hvalid.
    destruct (completed todo) eqn:Hc.
    + exists done_. split; [done|].
      intros [] Hst; simpl in Hst; rewrite ?Hc in Hst; done.
    + destruct (JS.truthy_opt (due_date todo)) eqn:Hd.
      * destruct (new_Date (due_date todo)) as [|ms] eqn:Hms; [done|].
        destruct (Z.ltb_spec ms now) as [Hlt|Hge].
        -- exists overdue. split.
           ++ apply statusFn_overdue. eauto.
           ++ intros [] Hst; [|by simpl in Hst; rewrite Hc in Hst|done].
              apply statusFn_in_progress in Hst as (_ & [?|[ms' [? ?]]]);
                [congruence|].
              assert (ms' = ms) as -> by congruence. lia.
        -- exists in_progress. split.
           ++ apply statusFn_in_progress. eauto.
           ++ intros [] Hst; [done|by simpl in Hst; rewrite Hc in Hst|].
              apply statusFn_overdue in Hst as (_ & _ & [ms' [? ?]]).
              assert (ms' = ms) as -> by congruence. lia.
      * exists in_progress. split.
        -- apply statusFn_in_progress. eauto.
        -- intros [] Hst; [done|by simpl in Hst; rewrite Hc in Hst|].
           apply statusFn_overdue in Hst as (_ & ? & _). congruence.
  - apply statusFn_in_progress.
  - done.
  - apply statusFn_overdue.
  - intros Hd. unfold statusFn. rewrite Hd. by rewrite andb_false_r.
Qed.

End Status.

(** ** Search and priority filters *)

Section Filters.
Context {rt : JS.Runtime}.

Lemma searchFn_spec (query : string) (todo : Todo) :
  searchFn query todo = true ↔
    ∃ pre post, JS.toLowerCase (title todo) = pre +:+ query +:+ post.
Proof. apply includes_spec. Qed.

Lemma priorityFn_spec (p : TodoPriority) (todo : Todo) :
  priorityFn p todo = true ↔ priority todo = Some p.
Proof. unfold priorityFn. apply bool_decide_eq_true. Qed.




End Filters.

(** ** Sorting by due date *)

Lemma StronglySorted_lookup_lt {A} (R : relation A) (l : list A) (i j : nat) (a b : A) :
  StronglySorted R l → l !! i = Some a → l !! j = Some b → (i < j)%nat → R a b.
Proof.
  intros Hsorted. revert i j.
  induction Hsorted as [|x l Hsorted IH Hall]; intros i j Hi Hj Hlt; [done|].
  destruct j as [|j]; [lia|]. destruct i as [|i]; simpl in *.
  - injection Hi as <-. eapply Forall_lookup_1; eauto.
  - apply (IH i j); auto with lia.
Qed.

(** Insertion keeps a list sorted for every order the comparator decides
    on the elements at hand. *)
Section InsertionSort.
Context {A : Type} (cmp : A → A → JS.Num) (R : relation A) (P : A → Prop).
Context `{!Transitive R}.
Hypothesis decides : ∀ x y, P x → P y →
  if 0 <? Arr.SortCompare cmp x y then R y x else R x y.

Lemma insert_StronglySorted (x : A) (l : list A) :
  P x → Forall P l → StronglySorted R l → StronglySorted R (Arr.insert cmp x l).
Proof.
  intros Hx HP Hsorted.
  induction Hsorted as [|y l Hsorted IH Hall]; simpl.
  - repeat constructor.
  - apply Forall_cons in HP as [Hy HP].
    specialize (decides x y Hx Hy).
    destruct (0 <? Arr.SortCompare cmp x y).
    + constructor; [by apply IH|].
      rewrite insert_Permutation. by constructor.
    + constructor; [by constructor|].
      constructor; [done|].
      eapply Forall_impl; [exact Hall|]. intros z Hz. by transitivity y.
Qed.

Lemma sorted_StronglySorted (l : list A) :
  Forall P l → StronglySorted R (Arr.sorted cmp l).
Proof.
  induction 1 as [|x l Hx HP IH]; simpl; [constructor|].
  apply insert_StronglySorted; [done| |done].
  by rewrite sorted_Permutation.
Qed.

End InsertionSort.

(** The sort is stable: a list that is in order already, ties included,
    is left as it is. *)
Lemma sorted_in_order {A} (cmp : A → A → JS.Num) (l : list A) :
  StronglySorted (λ x y, (0 <? Arr.SortCompare cmp x y) = false) l →
  Arr.sorted cmp l = l.
Proof.
  induction 1 as [|x l Hsorted IH Hall]; simpl; [done|].
  rewrite IH. destruct l as [|y l]; simpl; [done|].
  apply Forall_cons in Hall as [-> _]. done.
Qed.

Section DueDateOrder.
Context {rt : JS.Runtime}.

Global Instance due_le_trans : Transitive due_le.
Proof.
  intros a b c. unfold due_le.
  destruct (due_key a), (due_key b), (due_key c); try done. lia.
Qed.

Lemma due_key_Some (todo : Todo) (ms : Z) :
  due_key todo = Some ms ↔
    JS.truthy_opt (due_date todo) = true ∧ new_Date (due_date todo) = JS.Int ms.
Proof.
  unfold due_key.
  destruct (JS.truthy_opt (due_date todo)), (new_Date (due_date todo));
    split; try done; try (by intros [? ?]).
  - intros [= ->]. done.
  - intros [_ [= ->]]. done.
Qed.

Lemma due_key_None (todo : Todo) :
  valid_due_date todo = true →
  (due_key todo = None ↔ JS.truthy_opt (due_date todo) = false).
Proof.
  unfold valid_due_date, due_key.
  by destruct (JS.truthy_opt (due_date todo)), (new_Date (due_date todo)).
Qed.

Lemma compareFn_due_date_decides (a b : Todo) :
  valid_due_date a = true → valid_due_date b = true →
  if 0 <? Arr.SortCompare (compareFn by_due_date) a b
  then due_le b a else due_le a b.
Proof.
  unfold valid_due_date, due_le, due_key, Arr.SortCompare, compareFn.
  destruct (JS.truthy_opt (due_date a)), (JS.truthy_opt (due_date b)),
    (new_Date (due_date a)) as [|x], (new_Date (due_date b)) as [|y];
    simpl; try done.
  destruct (Z.ltb_spec 0 (x - y)); lia.
Qed.

Lemma forallb_valid_due_date (l : list Todo) :
  forallb valid_due_date l = true → Forall (λ t, valid_due_date t = true) l.
Proof.
  intros Hvalid. apply Forall_forall. intros t Ht.
  rewrite forallb_forall in Hvalid. apply Hvalid. by apply list_elem_of_In.
Qed.

Lemma sorted_by_due_date (l : list Todo) :
  Forall (λ t, valid_due_date t = true) l →
  StronglySorted due_le (Arr.sorted (compareFn by_due_date) l).
Proof.
  apply (sorted_StronglySorted _ due_le (λ t, valid_due_date t = true)).
  intros x y. apply compareFn_due_date_decides.
Qed.

(** What [due_le] says of two tasks in terms of their fields. *)
Lemma due_le_fields (a b : Todo) :
  valid_due_date a = true → valid_due_date b = true → due_le a b →
  (JS.truthy_opt (due_date a) = false → JS.truthy_opt (due_date b) = false) ∧
  (JS.truthy_opt (due_date a) = true → JS.truthy_opt (due_date b) = true →
     ∃ x y, new_Date (due_date a) = JS.Int x ∧
            new_Date (due_date b) = JS.Int y ∧ x ≤ y).
Proof.
  intros Ha Hb Hle. unfold due_le in Hle. split.
  - intros Hna. apply due_key_None in Hna; [|done]. rewrite Hna in Hle.
    destruct (due_key b) eqn:Hkb; [done|]. by apply due_key_None in Hkb.
  - intros Hta Htb.
    destruct (due_key a) as [x|] eqn:Hka;
      [|apply due_key_None in Hka; [congruence|done]].
    destruct (due_key b) as [y|] eqn:Hkb;
      [|apply due_key_None in Hkb; [congruence|done]].
    apply due_key_Some in Hka as [_ Hx]. apply due_key_Some in Hkb as [_ Hy].
    by exists x, y.
Qed.


(** The same order in the view, whatever the filters. *)
Lemma view_by_due_date_order (l : list Todo) (searchQuery : string)
    (statusFilter : Select TodoStatus) (priorityFilter : Select TodoPriority)
    (now : Z) (i j : nat) (a b : Todo) :
  forallb valid_due_date l = true →
  view l searchQuery statusFilter priorityFilter by_due_date now !! i = Some a →
  view l searchQuery statusFilter priorityFilter by_due_date now !! j = Some b →
  (i < j)%nat →
  (JS.truthy_opt (due_date a) = false → JS.truthy_opt (due_date b) = false) ∧
  (JS.truthy_opt (due_date a) = true → JS.truthy_opt (due_date b) = true →
     ∃ x y, new_Date (due_date a) = JS.Int x ∧
            new_Date (due_date b) = JS.Int y ∧ x ≤ y).
Proof.
  intros Hall%forallb_valid_due_date Hi Hj Hlt.
  assert (∀ t, t ∈ view l searchQuery statusFilter priorityFilter by_due_date now →
               valid_due_date t = true) as Hvalid.
  { intros t [Ht _]%elem_of_view. by eapply Forall_forall in Hall. }
  apply due_le_fields.
  - by eapply Hvalid, list_elem_of_lookup_2.
  - by eapply Hvalid, list_elem_of_lookup_2.
  - eapply StronglySorted_lookup_lt; [|exact Hi|exact Hj|exact Hlt].
    unfold view in *. apply sorted_by_due_date.
    apply Forall_forall. intros t Ht. apply Hvalid.
    by rewrite sorted_Permutation.
Qed.

End DueDateOrder.

(** ** The view is computed on a copy *)

Lemma returns_ret {St Ev Ex A} (a : A) (σ : St) :
  Eff.returns (Ev := Ev) (Ex := Ex) (Eff.ret a) σ a σ.
Proof. reflexivity. Qed.

Lemma returns_bind {St Ev Ex A B} (m : Eff.t St Ev Ex A) (k : A → Eff.t St Ev Ex B)
    (σ σ1 σ2 : St) (a : A) (b : B) :
  Eff.returns m σ a σ1 → Eff.returns (k a) σ1 b σ2 →
  Eff.returns (Eff.bind m k) σ b σ2.
Proof. unfold Eff.returns, Eff.bind. by intros -> ->. Qed.

Lemma bind_ret_l {St Ev Ex A B} (a : A) (k : A → Eff.t St Ev Ex B) (σ : St) :
  Eff.bind (Eff.ret a) k σ = k a σ.
Proof. unfold Eff.bind, Eff.ret. by destruct (k a σ) as [[tr σ'] o]. Qed.

Lemma spread_returns (σ : gmap nat (list Todo)) (a : nat) (l : list Todo) :
  σ !! a = Some l →
  Eff.returns (Arr.spread a) σ (fresh (dom σ)) (<[fresh (dom σ) := l]> σ).
Proof. intros Ha. unfold Eff.returns, Arr.spread, Eff.bind, Arr.read. by rewrite Ha. Qed.

Lemma filter_returns (σ : gmap nat (list Todo)) (a : nat) (l : list Todo)
    (p : Todo → bool) :
  σ !! a = Some l →
  Eff.returns (Arr.filter a p) σ (fresh (dom σ)) (<[fresh (dom σ) := List.filter p l]> σ).
Proof. intros Ha. unfold Eff.returns, Arr.filter, Eff.bind, Arr.read. by rewrite Ha. Qed.

Lemma sort_returns (σ : gmap nat (list Todo)) (a : nat) (l : list Todo)
    (cmp : Todo → Todo → JS.Num) :
  σ !! a = Some l →
  Eff.returns (Arr.sort a cmp) σ a (<[a := Arr.sorted cmp l]> σ).
Proof.
  intros Ha. unfold Eff.returns, Arr.sort, Eff.bind, Arr.read, Arr.write.
  rewrite Ha. simpl. by rewrite Ha.
Qed.

Lemma extends_dom (σ σ' : gmap nat (list Todo)) (r : nat) (l : list Todo) (k : nat) :
  Arr.extends σ σ' r l → k ∈ dom σ → k ∈ dom σ'.
Proof.
  intros (_ & _ & Hsame) Hk. apply elem_of_dom. rewrite Hsame by done.
  by apply elem_of_dom.
Qed.

Lemma extends_alloc_first (σ : gmap nat (list Todo)) (l' : list Todo) :
  Arr.extends σ (<[fresh (dom σ) := l']> σ) (fresh (dom σ)) l'.
Proof.
  pose proof (is_fresh (dom σ)) as Hfresh.
  repeat split; [apply lookup_insert_eq|done|].
  intros k Hk. apply lookup_insert_ne. by intros <-.
Qed.

Lemma extends_alloc (σ σ' : gmap nat (list Todo)) (r : nat) (l l' : list Todo) :
  Arr.extends σ σ' r l →
  Arr.extends σ (<[fresh (dom σ') := l']> σ') (fresh (dom σ')) l'.
Proof.
  intros Hext. pose proof (is_fresh (dom σ')) as Hfresh.
  assert (∀ k, k ∈ dom σ → k ∈ dom σ') as Hdom
    by (intros k; by eapply extends_dom).
  destruct Hext as (_ & _ & Hsame).
  repeat split; [apply lookup_insert_eq|by intros ?%Hdom|].
  intros k Hk. rewrite <- Hsame by done.
  apply lookup_insert_ne. intros <-. by apply Hdom in Hk.
Qed.

Lemma extends_write (σ σ' : gmap nat (list Todo)) (r : nat) (l l' : list Todo) :
  Arr.extends σ σ' r l → Arr.extends σ (<[r := l']> σ') r l'.
Proof.
  intros (Hr & Hfresh & Hsame). repeat split; [apply lookup_insert_eq|done|].
  intros k Hk. rewrite lookup_insert_ne by (by intros <-). by apply Hsame.
Qed.

Lemma List_filter_sublist {A} (p : A → bool) (l : list A) :
  List.filter p l `sublist_of` l.
Proof.
  induction l as [|x l IH]; simpl; [constructor|].
  destruct (p x); by constructor.
Qed.

Section ViewFrame.
Context {rt : JS.Runtime}.

Lemma view_submseteq (l : list Todo) (searchQuery : string)
    (statusFilter : Select TodoStatus) (priorityFilter : Select TodoPriority)
    (sortBy : SortBy) (now : Z) :
  view l searchQuery statusFilter priorityFilter sortBy now ⊆+ l.
Proof.
  unfold view. rewrite sorted_Permutation. apply sublist_submseteq.
  destruct priorityFilter, statusFilter, (JS.truthy (JS.trim searchQuery));
    repeat (etrans; [apply List_filter_sublist|]); done.
Qed.

(** What a run of [filteredAndSortedTodos] does to the store. *)
Lemma filteredAndSortedTodos_run (σ : gmap nat (list Todo)) (todos : nat)
    (l : list Todo) (searchQuery : string)
    (statusFilter : Select TodoStatus) (priorityFilter : Select TodoPriority)
    (sortBy : SortBy) (now : Z) :
  σ !! todos = Some l →
  ∃ r σ',
    Eff.returns (filteredAndSortedTodos todos searchQuery statusFilter
               priorityFilter sortBy now) σ r σ' ∧
    Arr.extends σ σ' r (view l searchQuery statusFilter priorityFilter sortBy now).
Proof.
  intros Htodos. unfold filteredAndSortedTodos, view.
  destruct (JS.truthy (JS.trim searchQuery)), statusFilter as [|st],
    priorityFilter as [|p];
    (eexists _, _; split;
     [ repeat (eapply returns_bind;
         [ first [ apply spread_returns, Htodos
                 | apply filter_returns, lookup_insert_eq
                 | apply sort_returns, lookup_insert_eq
                 | apply returns_ret ] | ]);
       apply returns_ret
     | eapply extends_write;
       repeat first [ apply extends_alloc_first | eapply extends_alloc ] ]).
Qed.

(** C10. Computing the view leaves the stored list as it is: the run
    allocates, the array [todos] and every other array of the store keep
    their contents, the result is a new array, and what it holds are
    tasks of the stored list, none made up and none more often than
    stored. *)
Theorem view_does_not_touch_stored_list (σ : gmap nat (list Todo)) (todos : nat)
    (l : list Todo) (searchQuery : string)
    (statusFilter : Select TodoStatus) (priorityFilter : Select TodoPriority)
    (sortBy : SortBy) (now : Z) :
  σ !! todos = Some l →
  ∃ r σ' shown,
    filteredAndSortedTodos todos searchQuery statusFilter priorityFilter
      sortBy now σ = ([], σ', Eff.Return r) ∧
    σ' !! todos = Some l ∧
    (∀ k, k ∈ dom σ → σ' !! k = σ !! k) ∧
    r ≠ todos ∧
    σ' !! r = Some shown ∧
    shown ⊆+ l ∧
    (∀ t, t ∈ shown → t ∈ l).
Proof.
  intros Htodos.
  destruct (filteredAndSortedTodos_run σ todos l searchQuery statusFilter
              priorityFilter sortBy now Htodos)
    as (r & σ' & Hrun & Hr & Hfresh & Hsame).
  assert (todos ∈ dom σ) as Hdom by (apply elem_of_dom; eauto).
  exists r, σ', (view l searchQuery statusFilter priorityFilter sortBy now).
  repeat split; try done.
  - rewrite Hsame by done. done.
  - by intros ->.
  - apply view_submseteq.
  - intros t Ht. eapply elem_of_submseteq; [exact Ht|apply view_submseteq].
Qed.

End ViewFrame.

(** ** The completion toggle *)

Section Toggle.
Context {rt : JS.Runtime}.
Variable supabase : Page.Supabase.

Lemma handleToggleComplete_confirmed (σ : Page.State) (u : User.t) (id' : string)
    (todo : Todo) (data : option (list Todo)) :
  Page.user σ = Some u →
  List.find (λ t, bool_decide (id t = id')) (Page.todos σ) = Some todo →
  Page.update_completed supabase id' (negb (completed todo)) (User.id u)
    = Page.answered data None →
  Page.handleToggleComplete supabase id' σ =
    ([Page.await_update_completed id' (negb (completed todo)) (User.id u);
      Page.set_todos (Page.toggled id' (Page.todos σ))],
     {| Page.user := Page.user σ;
        Page.todos := Page.toggled id' (Page.todos σ);
        Page.editingTodo := Page.editingTodo σ;
        Page.isLoadingTodos := Page.isLoadingTodos σ;
        Page.isFormLoading := Page.isFormLoading σ |},
     Eff.Return tt).
Proof.
  intros Hu Hfind Hans.
  destruct σ as [usr tds ed ld fl]; simpl in *. subst usr.
  unfold Page.handleToggleComplete, Eff.bind, Eff.get, Eff.try_catch. simpl.
  rewrite Hfind. unfold Page.await, Eff.bind, Eff.emit. by rewrite Hans.
Qed.

Lemma handleToggleComplete_failed (σ : Page.State) (u : User.t) (id' : string)
    (todo : Todo) (e : Thrown) :
  Page.user σ = Some u →
  List.find (λ t, bool_decide (id t = id')) (Page.todos σ) = Some todo →
  (Page.update_completed supabase id' (negb (completed todo)) (User.id u)
     = Page.rejected e ∨
   ∃ data, Page.update_completed supabase id' (negb (completed todo)) (User.id u)
     = Page.answered data (Some e)) →
  Page.handleToggleComplete supabase id' σ =
    let '(tr, σ', o) := Page.fetchTodos supabase (User.id u) σ in
    ([Page.await_update_completed id' (negb (completed todo)) (User.id u);
      Page.console_error "할 일 상태 변경 실패:" e;
      Page.alert "할 일 상태를 변경하는 중 오류가 발생했습니다."] ++ tr, σ', o).
Proof.
  intros Hu Hfind Hans.
  destruct σ as [usr tds ed ld fl]; simpl in *. subst usr.
  unfold Page.handleToggleComplete, Eff.bind, Eff.get, Eff.try_catch. simpl.
  rewrite Hfind. unfold Page.await, Eff.bind, Eff.emit.
  destruct Hans as [->|[data ->]]; simpl;
    by destruct (Page.fetchTodos supabase (User.id u) _) as [[tr σ'] o].
Qed.

Lemma fetchTodos_run (σ : Page.State) (userId : string) :
  ∃ tr σ',
    Page.fetchTodos supabase userId σ =
      ([Page.set_isLoadingTodos true; Page.await_select userId] ++ tr, σ',
       Eff.Return tt) ∧
    (∀ data, Page.select_todos supabase userId = Page.answered data None →
       Page.todos σ' = JS.opt_or data []).
Proof.
  unfold Page.fetchTodos, Eff.bind, Eff.try_finally, Eff.try_catch, Page.await,
    Eff.bind, Eff.emit.
  destruct σ as [usr tds ed ld fl]; simpl.
  destruct (Page.select_todos supabase userId) as [data [e|]|e]; simpl;
    eexists _, _; (split; [reflexivity|]); intros data'; intros [=]; by subst.
Qed.

(** C3, on the code.  The toggle handler awaits the remote update first
    and updates the local list only after the server has confirmed; when
    the server fails the local list is not flipped and the handler ends
    with the re-fetch of the list.  (The specification wants the local
    flip before the confirmation.) *)
Theorem toggle_waits_for_confirmation (σ : Page.State) (u : User.t)
    (id' : string) (todo : Todo) :
  Page.user σ = Some u →
  List.find (λ t, bool_decide (id t = id')) (Page.todos σ) = Some todo →
  let call := Page.await_update_completed id' (negb (completed todo)) (User.id u) in
  let answer := Page.update_completed supabase id' (negb (completed todo)) (User.id u) in
  (∀ data, answer = Page.answered data None →
     ∃ σ', Page.handleToggleComplete supabase id' σ =
             ([call; Page.set_todos (Page.toggled id' (Page.todos σ))], σ',
              Eff.Return tt)) ∧
  (∀ e, (answer = Page.rejected e ∨ ∃ data, answer = Page.answered data (Some e)) →
     ∃ tr σ', Page.handleToggleComplete supabase id' σ =
                ([call;
                  Page.console_error "할 일 상태 변경 실패:" e;
                  Page.alert "할 일 상태를 변경하는 중 오류가 발생했습니다.";
                  Page.set_isLoadingTodos true;
                  Page.await_select (User.id u)] ++ tr, σ', Eff.Return tt)).
Proof.
  intros Hu Hfind call answer. split.
  - intros data Hans. eexists. by eapply handleToggleComplete_confirmed.
  - intros e Hans.
    rewrite (handleToggleComplete_failed σ u id' todo e Hu Hfind Hans).
    destruct (fetchTodos_run σ (User.id u)) as (tr & σ' & -> & _).
    by exists tr, σ'.
Qed.

(** C9. Toggling a task that is overdue (not completed, due date before
    [now]) leaves it at its place in the list, out of the overdue bucket
    and in the completed bucket at the same [now]: so for the updater of
    the toggle, and so for the state the handler ends in once the server
    has confirmed. *)
Theorem toggle_moves_overdue_to_completed (σ : Page.State) (u : User.t)
    (id' : string) (i : nat) (t : Todo) (now : Z) :
  Page.user σ = Some u →
  Page.todos σ !! i = Some t →
  id t = id' →
  statusFn overdue now t = true →
  Page.toggled id' (Page.todos σ) !! i = Some (Page.flip_completed t) ∧
  completed (Page.flip_completed t) = true ∧
  statusFn overdue now (Page.flip_completed t) = false ∧
  statusFn done_ now (Page.flip_completed t) = true ∧
  statusFn in_progress now (Page.flip_completed t) = false ∧
  ((∀ c, ∃ data, Page.update_completed supabase id' c (User.id u)
                   = Page.answered data None) →
   ∃ tr σ',
     Page.handleToggleComplete supabase id' σ = (tr, σ', Eff.Return tt) ∧
     Page.todos σ' = Page.toggled id' (Page.todos σ)).
Proof.
  intros Hu Hi Hid Hover.
  apply statusFn_overdue in Hover as (Hc & _).
  split; [|split; [|split; [|split; [|split]]]].
  - unfold Page.toggled. rewrite list_lookup_fmap, Hi. simpl.
    by rewrite bool_decide_eq_true_2.
  - simpl. by rewrite Hc.
  - unfold statusFn, Page.flip_completed. simpl. by rewrite Hc.
  - simpl. by rewrite Hc.
  - unfold statusFn, Page.flip_completed. simpl. by rewrite Hc.
  - intros Hserver.
    destruct (List.find (λ t, bool_decide (id t = id')) (Page.todos σ))
      as [todo|] eqn:Hfind.
    + destruct (Hserver (negb (completed todo))) as [data Hans].
      rewrite (handleToggleComplete_confirmed σ u id' todo data Hu Hfind Hans).
      by eexists _, _.
    + exfalso. eapply find_none in Hfind.
      * apply bool_decide_eq_false in Hfind. apply Hfind, Hid.
      * apply list_elem_of_In. by eapply list_elem_of_lookup_2.
Qed.

End Toggle.

(** ** The form *)

Lemma truthy_true (s : string) : JS.truthy s = true ↔ s ≠ "".
Proof. by destruct s. Qed.

Lemma str_or_empty (s : string) : JS.str_or s "" = s.
Proof. by destruct s. Qed.

(** The manual path: what the form submits has a title that is not blank. *)
Lemma manual_submit_title_not_blank (σ : Form.State) (data : TodoInput.t) :
  Form.onSubmit data ∈ (Form.handleSubmit σ).1.1 →
  JS.truthy (JS.trim (TodoInput.title data)) = true.
Proof.
  unfold Form.handleSubmit, Eff.bind, Eff.get. simpl.
  destruct (JS.truthy (JS.trim (TodoInput.title (Form.formData σ)))) eqn:Htitle;
    simpl.
  - intros [= ->]%list_elem_of_singleton. done.
  - intros []%elem_of_nil.
Qed.

Section AiGenerate.
Variable fetch_parse_todo : string → Form.FetchAnswer.

Lemma handleAiGenerate_fill (σ : Form.State) (result : Parsed.t) :
  JS.truthy (JS.trim (Form.aiInput σ)) = true →
  fetch_parse_todo (Form.aiInput σ) = Form.response_ok (inr result) →
  Form.handleAiGenerate fetch_parse_todo false σ =
    ([Form.await_fetch_parse_todo (Form.aiInput σ);
      Form.toast_success
        "AI가 할 일을 생성했습니다! 확인 후 추가 버튼을 눌러주세요."],
     {| Form.formData := Form.generatedData result;
        Form.selectedCategories := Parsed.category result;
        Form.aiInput := "";
        Form.isAiGenerating := false |},
     Eff.Return tt).
Proof.
  intros Hinput Hfetch.
  unfold Form.handleAiGenerate, Eff.bind, Eff.get, Eff.try_finally,
    Eff.try_catch, Eff.emit.
  rewrite Hinput. simpl. by rewrite Hfetch.
Qed.

Lemma handleAiGenerate_auto (σ : Form.State) (result : Parsed.t) :
  JS.truthy (JS.trim (Form.aiInput σ)) = true →
  fetch_parse_todo (Form.aiInput σ) = Form.response_ok (inr result) →
  Form.handleAiGenerate fetch_parse_todo true σ =
    ([Form.await_fetch_parse_todo (Form.aiInput σ);
      Form.toast_success "AI가 할 일을 생성했습니다!";
      Form.onSubmit (Form.generatedData result);
      Form.toast_success "할 일이 추가되었습니다!"],
     {| Form.formData := Form.emptyForm;
        Form.selectedCategories := [];
        Form.aiInput := "";
        Form.isAiGenerating := false |},
     Eff.Return tt).
Proof.
  intros Hinput Hfetch.
  unfold Form.handleAiGenerate, Eff.bind, Eff.get, Eff.try_finally,
    Eff.try_catch, Eff.emit.
  rewrite Hinput. simpl. by rewrite Hfetch.
Qed.

(** C4, on the code.  The AI path with auto-submit hands the submit
    handler the title of the parser response as it came, without the test
    for a blank title that the manual path makes: a response with a blank
    title is submitted with that title.  (The specification wants every
    submitted title to be non-blank.) *)
Theorem ai_auto_submit_title_unchecked (σ : Form.State) (result : Parsed.t) :
  JS.truthy (JS.trim (Form.aiInput σ)) = true →
  fetch_parse_todo (Form.aiInput σ) = Form.response_ok (inr result) →
  Form.onSubmit (Form.generatedData result)
    ∈ (Form.handleAiGenerate fetch_parse_todo true σ).1.1 ∧
  TodoInput.title (Form.generatedData result) = Parsed.title result.
Proof.
  intros Hinput Hfetch. rewrite (handleAiGenerate_auto σ result Hinput Hfetch).
  split; [|apply str_or_empty]. simpl. set_solver.
Qed.

(** C5. The due value the form is pre-filled with: date and time joined
    by [T] when the response has both, the date with [T09:00] when it has
    a date and no time, and empty when it has no date, whatever the time.
    (A field that is present and empty counts as absent.) *)
Theorem due_value_prefill (result : Parsed.t) :
  (∀ d t, Parsed.due_date result = Some d → Parsed.due_time result = Some t →
          d ≠ "" → t ≠ "" →
          Form.dueDateValue result = d +:+ "T" +:+ t) ∧
  (∀ d, Parsed.due_date result = Some d → d ≠ "" →
        JS.truthy_opt (Parsed.due_time result) = false →
        Form.dueDateValue result = d +:+ "T09:00") ∧
  (JS.truthy_opt (Parsed.due_date result) = false →
     Form.dueDateValue result = "") ∧
  TodoInput.due_date (Form.generatedData result)
    = Some (Form.dueDateValue result) ∧
  (∀ σ, JS.truthy (JS.trim (Form.aiInput σ)) = true →
        fetch_parse_todo (Form.aiInput σ) = Form.response_ok (inr result) →
        TodoInput.due_date
          (Form.formData (Form.handleAiGenerate fetch_parse_todo false σ).1.2)
        = Some (Form.dueDateValue result)).
Proof.
  unfold Form.dueDateValue. repeat split.
  - intros d t -> -> Hd%truthy_true Ht%truthy_true. simpl. by rewrite Hd, Ht.
  - intros d -> Hd%truthy_true ->. simpl. by rewrite Hd.
  - by intros ->.
  - intros σ Hinput Hfetch.
    by rewrite (handleAiGenerate_fill σ result Hinput Hfetch).
Qed.

End AiGenerate.

(** ** The parsing endpoint *)

Section Endpoint.
Variable w : Route.World.

(** The diagnostic listing never lets an exception out. *)
Lemma list_available_models_returns :
  ∃ tr, Route.list_available_models w () = (tr, (), Eff.Return ()).
Proof.
  unfold Route.list_available_models, Eff.bind, Eff.try_catch, Eff.emit. simpl.
  destruct (Route.fetch_and_log_models w ()) as [[tr []] [[]|e]];
    simpl; by eexists.
Qed.

(** Whatever is thrown inside the route comes back as a 500 with an
    error message. *)
Lemma catch_responds_500 (error : Thrown) :
  ∃ tr msg,
    (Eff.emit (Route.console_error "Parse todo error:" (Some error));;
     (if Route.has_statusCode_404 error
      then Route.list_available_models w else Eff.ret ());;
     match error with
     | error_obj message _ =>
         Eff.ret (Route.NextResponse_json
           (Route.error_body ("할 일 파싱 중 오류가 발생했습니다: " +:+ message))
           (Some 500))
     | _ =>
         Eff.ret (Route.NextResponse_json
           (Route.error_body "할 일 파싱 중 알 수 없는 오류가 발생했습니다.")
           (Some 500))
     end)%eff ()
    = (tr, (), Eff.Return {| Route.body := Route.error_body msg;
                             Route.status := 500 |}).
Proof.
  unfold Eff.bind, Eff.emit. simpl.
  destruct list_available_models_returns as [tr Hlist].
  destruct (Route.has_statusCode_404 error); rewrite ?Hlist;
    destruct error; simpl; by eexists _, _.
Qed.


End Endpoint.

(** * The properties on the sample data *)

Example view_by_due_date :
  List.map title
    (view (rt := Host.utc) Sample.todos "" all all by_due_date Sample.now)
  = ["Pay the Rent"; "Quarterly report"; "Read the rental contract"].
Proof. reflexivity. Qed.

Example view_search :
  List.map title
    (view (rt := Host.utc) Sample.todos "RENT" all all by_title Sample.now)
  = ["Pay the Rent"; "Read the rental contract"].
Proof. reflexivity. Qed.

Example view_by_priority :
  List.map title
    (view (rt := Host.utc) Sample.todos "" all all by_priority Sample.now)
  = ["Pay the Rent"; "Read the rental contract"; "Quarterly report"].
Proof. reflexivity. Qed.

Lemma status_filter_partition_sample :
  valid_due_date (rt := Host.utc) Sample.rent = true ∧
  (exists! st, statusFn (rt := Host.utc) st Sample.now Sample.rent = true) ∧
  statusFn (rt := Host.utc) overdue Sample.now Sample.rent = true.
Proof.
  split; [reflexivity|]. split; [|reflexivity].
  exact (proj1 (status_filter_partition (rt := Host.utc)
                  Sample.rent Sample.now eq_refl)).
Defined.

(** A record whose due date does not parse is outside the three buckets:
    both comparisons with an invalid date are false. *)
Remark invalid_due_date_in_no_bucket :
  valid_due_date (rt := Host.utc) Sample.someday = false ∧
  ∀ st, statusFn (rt := Host.utc) st Sample.now Sample.someday = false.
Proof. split; [reflexivity|]. by intros []. Qed.




Lemma view_does_not_touch_stored_list_sample :
  Sample.store !! 7%nat = Some Sample.todos ∧
  ∃ r σ' shown,
    filteredAndSortedTodos (rt := Host.utc) 7%nat "re" all (only low)
      by_due_date Sample.now Sample.store = ([], σ', Eff.Return r) ∧
    σ' !! 7%nat = Some Sample.todos ∧
    (∀ k, k ∈ dom Sample.store → σ' !! k = Sample.store !! k) ∧
    r ≠ 7%nat ∧
    σ' !! r = Some shown ∧
    shown ⊆+ Sample.todos ∧
    (∀ t, t ∈ shown → t ∈ Sample.todos).
Proof.
  split; [reflexivity|].
  exact (view_does_not_touch_stored_list (rt := Host.utc) Sample.store 7%nat
           Sample.todos "re" all (only low) by_due_date Sample.now eq_refl).
Defined.

Lemma toggle_waits_for_confirmation_sample :
  Page.user Sample.page = Some Sample.user ∧
  List.find (λ t, bool_decide (id t = "1")) (Page.todos Sample.page)
    = Some Sample.rent ∧
  (∃ σ', Page.handleToggleComplete Sample.confirming "1" Sample.page =
           ([Page.await_update_completed "1" true "u1";
             Page.set_todos (Page.toggled "1" Sample.todos)], σ',
            Eff.Return tt)) ∧
  (∃ tr σ', Page.handleToggleComplete Sample.failing "1" Sample.page =
              ([Page.await_update_completed "1" true "u1";
                Page.console_error "할 일 상태 변경 실패:" (other_obj (Some 503));
                Page.alert "할 일 상태를 변경하는 중 오류가 발생했습니다.";
                Page.set_isLoadingTodos true;
                Page.await_select "u1"] ++ tr, σ', Eff.Return tt)).
Proof.
  split; [reflexivity|]. split; [reflexivity|]. split.
  - exact (proj1 (toggle_waits_for_confirmation Sample.confirming Sample.page
                    Sample.user "1" Sample.rent eq_refl eq_refl) None eq_refl).
  - exact (proj2 (toggle_waits_for_confirmation Sample.failing Sample.page
                    Sample.user "1" Sample.rent eq_refl eq_refl)
             (other_obj (Some 503)) (or_intror (ex_intro _ None eq_refl))).
Defined.

Lemma toggle_moves_overdue_to_completed_sample :
  Page.user Sample.page = Some Sample.user ∧
  Page.todos Sample.page !! 2%nat = Some Sample.rent ∧
  statusFn (rt := Host.utc) overdue Sample.now Sample.rent = true ∧
  Page.toggled "1" (Page.todos Sample.page) !! 2%nat
    = Some (Page.flip_completed Sample.rent) ∧
  completed (Page.flip_completed Sample.rent) = true ∧
  statusFn (rt := Host.utc) overdue Sample.now (Page.flip_completed Sample.rent) = false ∧
  statusFn (rt := Host.utc) done_ Sample.now (Page.flip_completed Sample.rent) = true ∧
  statusFn (rt := Host.utc) in_progress Sample.now (Page.flip_completed Sample.rent) = false ∧
  ∃ tr σ',
    Page.handleToggleComplete Sample.confirming "1" Sample.page
      = (tr, σ', Eff.Return tt) ∧
    Page.todos σ' = Page.toggled "1" (Page.todos Sample.page).
Proof.
  split; [reflexivity|]. split; [reflexivity|]. split; [reflexivity|].
  pose proof (toggle_moves_overdue_to_completed (rt := Host.utc) Sample.confirming
                Sample.page Sample.user "1" 2 Sample.rent Sample.now
                eq_refl eq_refl eq_refl eq_refl) as (H1 & H2 & H3 & H4 & H5 & H6).
  repeat (split; [assumption|]).
  exact (H6 (λ c, ex_intro _ None eq_refl)).
Defined.

Lemma ai_auto_submit_title_unchecked_sample :
  JS.truthy (JS.trim (Form.aiInput Sample.form)) = true ∧
  Form.onSubmit (Form.generatedData Sample.untitled)
    ∈ (Form.handleAiGenerate (Sample.endpoint Sample.untitled) true Sample.form).1.1 ∧
  TodoInput.title (Form.generatedData Sample.untitled) = "".
Proof.
  split; [reflexivity|].
  exact (ai_auto_submit_title_unchecked (Sample.endpoint Sample.untitled)
           Sample.form Sample.untitled eq_refl eq_refl).
Defined.

(** The title submitted there is blank, and the submit handler of the
    page passes the title it is given on to the insert. *)
Remark blank_title_reaches_insert :
  JS.truthy (JS.trim (TodoInput.title (Form.generatedData Sample.untitled))) = false ∧
  ∃ row tr,
    (Page.handleSubmit Sample.confirming (Form.generatedData Sample.untitled)
       Sample.page).1.1
    = Page.set_isFormLoading true :: Page.await_insert row :: tr ∧
    Page.row_title row = "".
Proof. split; [reflexivity|]. eexists _, _. split; reflexivity. Qed.

Lemma page_handleSubmit_inserts_title (supabase : Page.Supabase) (σ : Page.State)
    (u : User.t) (data : TodoInput.t) :
  Page.user σ = Some u → Page.editingTodo σ = None →
  ∃ row tr,
    (Page.handleSubmit supabase data σ).1.1
    = Page.set_isFormLoading true :: Page.await_insert row :: tr ∧
    Page.row_title row = TodoInput.title data.
Proof.
  intros Hu Hed. destruct σ as [usr tds ed ld fl]; simpl in *. subst usr ed.
  unfold Page.handleSubmit, Eff.bind, Eff.get, Eff.try_finally, Eff.try_catch.
  simpl.
  destruct (Page.insert_todo supabase _) as [data' [e|]|e]; simpl;
    try (eexists _, _; split; reflexivity).
  destruct (Page.fetchTodos supabase (User.id u) _) as [[tr σ'] [[]|e]];
    eexists _, _; split; reflexivity.
Qed.

Lemma due_value_prefill_sample :
  Form.dueDateValue Sample.meeting = "2024-01-02T10:00" ∧
  Form.dueDateValue Sample.untitled = "2024-01-02T09:00" ∧
  TodoInput.due_date
    (Form.formData
       (Form.handleAiGenerate (Sample.endpoint Sample.meeting) false Sample.form).1.2)
  = Some "2024-01-02T10:00".
Proof.
  split; [|split].
  - exact (proj1 (due_value_prefill (Sample.endpoint Sample.meeting) Sample.meeting)
             "2024-01-02" "10:00" eq_refl eq_refl
             (λ H, eq_ind "2024-01-02" JS.truthy I "" H)
             (λ H, eq_ind "10:00" JS.truthy I "" H)).
  - exact (proj1 (proj2 (due_value_prefill (Sample.endpoint Sample.untitled)
                           Sample.untitled))
             "2024-01-02" eq_refl
             (λ H, eq_ind "2024-01-02" JS.truthy I "" H) eq_refl).
  - exact (proj2 (proj2 (proj2 (proj2
             (due_value_prefill (Sample.endpoint Sample.meeting) Sample.meeting))))
             Sample.form eq_refl eq_refl).
Defined.


(** Bodies that are not objects: [null] cannot be destructured and ends
    in the handler (500); any other value has no [input] (400).  A body
    that is not JSON at all ends in the handler as well. *)
Remark post_null_body (w : Route.World) :
  ∃ tr msg,
    Route.POST w (inr Route.JNull) ()
    = (tr, (), Eff.Return {| Route.body := Route.error_body msg;
                             Route.status := 500 |}).
Proof. by eexists _, _. Qed.

Remark post_scalar_or_array_body (w : Route.World) (v : Route.JSON) :
  v ≠ Route.JNull → (∀ fields, v ≠ Route.JObject fields) →
  ∃ msg,
    Route.POST w (inr v) ()
    = ([], (), Eff.Return {| Route.body := Route.error_body msg;
                             Route.status := 400 |}).
Proof.
  intros Hnull Hobj. destruct v; try done; try (by eexists).
  by destruct (Hobj fields).
Qed.

Remark post_unreadable_body (w : Route.World) (e : Thrown) :
  ∃ tr msg,
    Route.POST w (inl e) ()
    = (tr, (), Eff.Return {| Route.body := Route.error_body msg;
                             Route.status := 500 |}).
Proof.
  unfold Route.POST, Eff.try_catch. simpl.
  destruct (catch_responds_500 w e) as (tr & msg & ->). by eexists _, _.
Qed.

(** * Further properties of the code *)

(** ** The list view: the other sort keys, ties, and what is shown *)

Lemma insert_filter_stable {A} (cmp : A → A → JS.Num) (p : A → bool) (x : A)
    (l : list A) :
  (∀ y, y ∈ l → 0 < Arr.SortCompare cmp x y → p x = true → p y = true → False) →
  List.filter p (Arr.insert cmp x l) = List.filter p (x :: l).
Proof.
  induction l as [|y l IH]; intros Hties; [done|].
  cbn [Arr.insert].
  destruct (Z.ltb_spec 0 (Arr.SortCompare cmp x y)) as [Hlt|Hle]; [|done].
  cbn [List.filter]. rewrite IH.
  - cbn [List.filter].
    destruct (p x) eqn:Hx, (p y) eqn:Hy; try done.
    destruct (Hties y); [by left|done..].
  - intros z Hz. apply Hties. by right.
Qed.

(** The sort keeps the order of the elements of a class that the
    comparator never puts apart. *)
Lemma sorted_filter_stable {A} (cmp : A → A → JS.Num) (p : A → bool) (l : list A) :
  (∀ x y, 0 < Arr.SortCompare cmp x y → p x = true → p y = true → False) →
  List.filter p (Arr.sorted cmp l) = List.filter p l.
Proof.
  intros Hties. induction l as [|x l IH]; [done|].
  cbn [Arr.sorted]. rewrite insert_filter_stable.
  - cbn [List.filter]. by rewrite IH.
  - intros y _. apply Hties.
Qed.

Section SortKeys.
Context {rt : JS.Runtime}.

Lemma view_filtered (l : list Todo) (searchQuery : string)
    (statusFilter : Select TodoStatus) (priorityFilter : Select TodoPriority)
    (sortBy : SortBy) (now : Z) :
  view l searchQuery statusFilter priorityFilter sortBy now
  = Arr.sorted (compareFn sortBy)
      (filtered l searchQuery statusFilter priorityFilter now).
Proof. reflexivity. Qed.

Lemma filtered_sublist (l : list Todo) (searchQuery : string)
    (statusFilter : Select TodoStatus) (priorityFilter : Select TodoPriority)
    (now : Z) :
  filtered l searchQuery statusFilter priorityFilter now `sublist_of` l.
Proof.
  unfold filtered.
  destruct priorityFilter, statusFilter, (JS.truthy (JS.trim searchQuery));
    repeat (etrans; [apply List_filter_sublist|]); done.
Qed.

Lemma SortCompare_by_priority (a b : Todo) :
  Arr.SortCompare (compareFn by_priority) a b = priority_rank b - priority_rank a.
Proof. reflexivity. Qed.

Global Instance priority_rank_ge_trans :
  Transitive (λ a b : Todo, priority_rank b ≤ priority_rank a).
Proof. intros a b c. lia. Qed.

(** X1. Sorted by priority, the view runs from high to low: a task never
    comes before one of higher priority, a task without priority counting
    as low. *)
Theorem view_by_priority_descending (l : list Todo) (searchQuery : string)
    (statusFilter : Select TodoStatus) (priorityFilter : Select TodoPriority)
    (now : Z) (i j : nat) (a b : Todo) :
  view l searchQuery statusFilter priorityFilter by_priority now !! i = Some a →
  view l searchQuery statusFilter priorityFilter by_priority now !! j = Some b →
  (i < j)%nat →
  priorityOrder (JS.opt_or (priority b) low)
    ≤ priorityOrder (JS.opt_or (priority a) low).
Proof.
  intros Hi Hj Hlt. rewrite view_filtered in Hi, Hj.
  eapply (StronglySorted_lookup_lt (λ a b, priority_rank b ≤ priority_rank a));
    [|exact Hi|exact Hj|exact Hlt].
  apply (sorted_StronglySorted _ _ (λ _, True)).
  - intros x y _ _. rewrite SortCompare_by_priority.
    destruct (Z.ltb_spec 0 (priority_rank y - priority_rank x)); lia.
  - by apply Forall_forall.
Qed.

(** X2. Sorting by priority is stable: the tasks of one priority (absent
    counting as low) stand in the view in the order the filters left
    them in, which is the order of the stored list. *)
Theorem view_by_priority_keeps_ties (l : list Todo) (searchQuery : string)
    (statusFilter : Select TodoStatus) (priorityFilter : Select TodoPriority)
    (now : Z) (p : TodoPriority) :
  List.filter (λ t, bool_decide (JS.opt_or (priority t) low = p))
    (view l searchQuery statusFilter priorityFilter by_priority now)
  = List.filter (λ t, bool_decide (JS.opt_or (priority t) low = p))
      (filtered l searchQuery statusFilter priorityFilter now) ∧
  filtered l searchQuery statusFilter priorityFilter now `sublist_of` l.
Proof.
  split; [|apply filtered_sublist].
  rewrite view_filtered. apply sorted_filter_stable.
  intros x y Hlt Hx%bool_decide_eq_true Hy%bool_decide_eq_true.
  rewrite SortCompare_by_priority in Hlt. unfold priority_rank in Hlt.
  rewrite Hx, Hy in Hlt. lia.
Qed.

Lemma SortCompare_by_created_date (a b : Todo) :
  valid_created_date a = true → valid_created_date b = true →
  Arr.SortCompare (compareFn by_created_date) a b = created_key b - created_key a.
Proof.
  unfold valid_created_date, created_key, Arr.SortCompare, compareFn.
  by destruct (JS.Date_parse (created_date a)), (JS.Date_parse (created_date b)).
Qed.

Global Instance created_key_ge_trans :
  Transitive (λ a b : Todo, created_key b ≤ created_key a).
Proof. intros a b c. lia. Qed.

(** X3. Sorted by creation date, the view runs from the newest task to
    the oldest (for tasks whose creation dates are dates). *)
Theorem view_by_created_date_descending (l : list Todo) (searchQuery : string)
    (statusFilter : Select TodoStatus) (priorityFilter : Select TodoPriority)
    (now : Z) (i j : nat) (a b : Todo) :
  forallb valid_created_date l = true →
  view l searchQuery statusFilter priorityFilter by_created_date now !! i = Some a →
  view l searchQuery statusFilter priorityFilter by_created_date now !! j = Some b →
  (i < j)%nat →
  ∃ x y, JS.Date_parse (created_date a) = JS.Int x ∧
         JS.Date_parse (created_date b) = JS.Int y ∧ y ≤ x.
Proof.
  intros Hvalid Hi Hj Hlt.
  assert (∀ t, t ∈ l → valid_created_date t = true) as Hall.
  { intros t Ht. rewrite forallb_forall in Hvalid. apply Hvalid.
    by apply list_elem_of_In. }
  assert (∀ t, t ∈ filtered l searchQuery statusFilter priorityFilter now →
               valid_created_date t = true) as Hall'.
  { intros t Ht. apply Hall. eapply elem_of_sublist; [done|apply filtered_sublist]. }
  rewrite view_filtered in Hi, Hj.
  assert (created_key b ≤ created_key a) as Hle.
  { eapply (StronglySorted_lookup_lt (λ a b, created_key b ≤ created_key a));
      [|exact Hi|exact Hj|exact Hlt].
    apply (sorted_StronglySorted _ _ (λ t, valid_created_date t = true)).
    - intros x y Hx Hy. rewrite SortCompare_by_created_date by done.
      destruct (Z.ltb_spec 0 (created_key y - created_key x)); lia.
    - by apply Forall_forall. }
  assert (valid_created_date a = true) as Ha.
  { apply Hall'. rewrite <- (sorted_Permutation (compareFn by_created_date)).
    by eapply list_elem_of_lookup_2. }
  assert (valid_created_date b = true) as Hb.
  { apply Hall'. rewrite <- (sorted_Permutation (compareFn by_created_date)).
    by eapply list_elem_of_lookup_2. }
  unfold valid_created_date, created_key in *.
  destruct (JS.Date_parse (created_date a)) as [|x]; [done|].
  destruct (JS.Date_parse (created_date b)) as [|y]; [done|].
  by exists x, y.
Qed.

(** X4. Sorting by due date is stable as well: the tasks without a due
    date, which it puts last, keep the order they had, and so do tasks
    with one and the same due date. *)
Theorem view_by_due_date_keeps_ties (l : list Todo) (searchQuery : string)
    (statusFilter : Select TodoStatus) (priorityFilter : Select TodoPriority)
    (now : Z) (k : option Z) :
  forallb valid_due_date l = true →
  List.filter (λ t, bool_decide (due_key t = k))
    (view l searchQuery statusFilter priorityFilter by_due_date now)
  = List.filter (λ t, bool_decide (due_key t = k))
      (filtered l searchQuery statusFilter priorityFilter now).
Proof.
  intros Hvalid%forallb_valid_due_date.
  assert (Forall (λ t, valid_due_date t = true)
            (filtered l searchQuery statusFilter priorityFilter now)) as Hall.
  { apply Forall_forall. intros t Ht. eapply Forall_forall in Hvalid; [done|].
    eapply elem_of_sublist; [done|apply filtered_sublist]. }
  rewrite view_filtered.
  induction Hall as [|x l' Hx Hall IH]; [done|].
  cbn [Arr.sorted]. rewrite insert_filter_stable.
  - cbn [List.filter]. by rewrite IH.
  - intros y Hy Hlt Hkx%bool_decide_eq_true Hky%bool_decide_eq_true.
    assert (valid_due_date y = true) as Hvy.
    { rewrite sorted_Permutation in Hy. by eapply Forall_forall in Hall. }
    pose proof (compareFn_due_date_decides x y Hx Hvy) as Hdec.
    destruct (Z.ltb_spec 0 (Arr.SortCompare (compareFn by_due_date) x y)); [|lia].
    clear Hdec. revert Hlt.
    unfold valid_due_date, due_key, Arr.SortCompare, compareFn in *.
    destruct (JS.truthy_opt (due_date x)), (JS.truthy_opt (due_date y)),
      (new_Date (due_date x)) as [|a], (new_Date (due_date y)) as [|b];
      simpl in *; try done; try lia.
    all: subst k; simplify_eq; lia.
Qed.

End SortKeys.

Section Shown.
Context {rt : JS.Runtime}.

(** X5. With a search text that is empty or blank and both selects on
    "all", nothing is hidden: the view is the stored list rearranged,
    each task once, whatever the sort key. *)
Theorem view_without_filters_shows_all (l : list Todo) (searchQuery : string)
    (sortBy : SortBy) (now : Z) :
  JS.truthy (JS.trim searchQuery) = false →
  view l searchQuery all all sortBy now ≡ₚ l.
Proof.
  intros Hblank. unfold view. rewrite Hblank. apply sorted_Permutation.
Qed.

(** X6. Search, status filter and priority filter compose by "and", and
    the sort key has no say in what is shown: a task is in the view
    exactly when it is stored, its lowercased title contains the
    lowercased search text (if that is not blank), it passes the selected
    status test (if one is selected) and has the selected priority (if
    one is selected). *)
Theorem view_filters_compose (l : list Todo) (searchQuery : string)
    (statusFilter : Select TodoStatus) (priorityFilter : Select TodoPriority)
    (sortBy : SortBy) (now : Z) (t : Todo) :
  t ∈ view l searchQuery statusFilter priorityFilter sortBy now ↔
    t ∈ l ∧
    (JS.truthy (JS.trim searchQuery) = true →
       ∃ pre post, JS.toLowerCase (title t)
                   = pre +:+ JS.toLowerCase searchQuery +:+ post) ∧
    (∀ st, statusFilter = only st → statusFn st now t = true) ∧
    (∀ p, priorityFilter = only p → priority t = Some p).
Proof.
  rewrite elem_of_view.
  setoid_rewrite searchFn_spec. setoid_rewrite priorityFn_spec. done.
Qed.

(** ** The card of a task *)

Lemma card_overdue_agrees_with_filter_aux (todo : Todo) (now : Z) :
  isOverdue todo now = statusFn overdue now todo ∧
  (completed todo = true → statusFn overdue now todo = false).
Proof.
  unfold isOverdue, statusFn.
  by destruct (completed todo), (JS.truthy_opt (due_date todo)),
    (JS.lt (new_Date (due_date todo)) (JS.Int now)).
Qed.

(** X7. The card and the list agree on what is overdue: [isOverdue] of
    the card is the overdue test of the status filter at the same clock
    reading, so the badge shows on exactly the tasks the filter "지연"
    keeps; an overdue task is never completed, which makes the extra
    [!todo.completed] of the badge redundant. *)
Theorem card_overdue_agrees_with_filter (todo : Todo) (now : Z) :
  isOverdue todo now = statusFn overdue now todo ∧
  showsOverdueBadge todo now = statusFn overdue now todo ∧
  (isOverdue todo now = true → completed todo = false).
Proof.
  unfold isOverdue, showsOverdueBadge, isOverdue, statusFn.
  by destruct (completed todo), (JS.truthy_opt (due_date todo)),
    (JS.lt (new_Date (due_date todo)) (JS.Int now)).
Qed.

(** X8. The colours of the card: a completed task is grey whatever its
    priority and due date; the warning border and the warning background
    go together and are on exactly the overdue tasks; every other task
    gets the colours of its priority. *)
Theorem card_colours (todo : Todo) (now : Z) :
  let border := getPriorityBorderColor todo (isOverdue todo now) (priority todo) in
  let bg := getPriorityBgColor todo (isOverdue todo now) (priority todo) in
  (completed todo = true → border = "border-l-gray-300" ∧ bg = "bg-muted/30") ∧
  (border = "border-l-destructive" ↔ statusFn overdue now todo = true) ∧
  (bg = "bg-destructive/5" ↔ statusFn overdue now todo = true) ∧
  (completed todo = false → statusFn overdue now todo = false →
     border = getPriorityBorderColor todo false (priority todo) ∧
     bg = getPriorityBgColor todo false (priority todo) ∧
     border ≠ "border-l-gray-300" ∧ bg ≠ "bg-muted/30").
Proof.
  intros border bg. subst border bg.
  destruct (card_overdue_agrees_with_filter_aux todo now) as [-> Hc].
  unfold getPriorityBorderColor, getPriorityBgColor.
  destruct (completed todo) eqn:Hcompl.
  - rewrite Hc by done. repeat split; try done.
  - destruct (statusFn overdue now todo); repeat split; try done;
      destruct (priority todo) as [[]|]; done.
Qed.

End Shown.

(** ** The handlers of the page *)

Lemma flip_completed_involutive (t : Todo) :
  Page.flip_completed (Page.flip_completed t) = t.
Proof. destruct t as [? ? ? ? ? ? ? ? c]. unfold Page.flip_completed. simpl.
  by rewrite negb_involutive. Qed.

Lemma toggled_involutive (id' : string) (l : list Todo) :
  Page.toggled id' (Page.toggled id' l) = l.
Proof.
  unfold Page.toggled. induction l as [|t l IH]; [done|].
  cbn [List.map]. rewrite IH. f_equal.
  destruct (bool_decide (id t = id')) eqn:Hid; simpl; rewrite Hid; [|done].
  apply flip_completed_involutive.
Qed.

(** Membership in a trace that is written out. *)
Ltac step_in :=
  repeat first
    [ apply list_elem_of_here
    | apply list_elem_of_further
    | apply elem_of_app; right ].

Ltac step_not_in :=
  let Hin := fresh "Hin" in
  intros Hin;
  repeat (apply elem_of_cons in Hin as [Hin|Hin]; [discriminate Hin|]);
  by apply elem_of_nil in Hin.

Section PageHandlers.
Variable supabase : Page.Supabase.

(** What [fetchTodos] does, by the answer of the server. *)
Lemma fetchTodos_cases (σ : Page.State) (userId : string) :
  Page.fetchTodos supabase userId σ =
    match Page.select_todos supabase userId with
    | Page.answered data None =>
        ([Page.set_isLoadingTodos true; Page.await_select userId;
          Page.set_todos (JS.opt_or data []); Page.set_isLoadingTodos false],
         {| Page.user := Page.user σ; Page.todos := JS.opt_or data [];
            Page.editingTodo := Page.editingTodo σ;
            Page.isLoadingTodos := false;
            Page.isFormLoading := Page.isFormLoading σ |},
         Eff.Return tt)
    | Page.answered _ (Some e) | Page.rejected e =>
        ([Page.set_isLoadingTodos true; Page.await_select userId;
          Page.console_error "할 일 조회 실패:" e;
          Page.alert "할 일 목록을 불러오는 중 오류가 발생했습니다.";
          Page.set_isLoadingTodos false],
         {| Page.user := Page.user σ; Page.todos := Page.todos σ;
            Page.editingTodo := Page.editingTodo σ;
            Page.isLoadingTodos := false;
            Page.isFormLoading := Page.isFormLoading σ |},
         Eff.Return tt)
    end.
Proof.
  unfold Page.fetchTodos, Eff.bind, Eff.try_finally, Eff.try_catch, Page.await,
    Eff.bind, Eff.emit.
  destruct σ as [usr tds ed ld fl]; simpl.
  by destruct (Page.select_todos supabase userId) as [data [e|]|e].
Qed.

(** X9. [fetchTodos] never throws and always ends with the loading flag
    off; an answer without error replaces the list by the rows of the
    answer (by the empty list when the answer carries none); an error or
    a rejection leaves the list as it was and is reported by an alert.
    The signed-in user, the task being edited and the flag of the form
    are not touched. *)
Theorem fetchTodos_outcome (σ : Page.State) (userId : string) :
  ∃ tr σ',
    Page.fetchTodos supabase userId σ = (tr, σ', Eff.Return tt) ∧
    Page.isLoadingTodos σ' = false ∧
    Page.user σ' = Page.user σ ∧
    Page.editingTodo σ' = Page.editingTodo σ ∧
    Page.isFormLoading σ' = Page.isFormLoading σ ∧
    (∀ data, Page.select_todos supabase userId = Page.answered data None →
       Page.todos σ' = JS.opt_or data []) ∧
    (∀ e, (Page.select_todos supabase userId = Page.rejected e ∨
           ∃ data, Page.select_todos supabase userId = Page.answered data (Some e)) →
       Page.todos σ' = Page.todos σ ∧
       Page.alert "할 일 목록을 불러오는 중 오류가 발생했습니다." ∈ tr).
Proof.
  rewrite fetchTodos_cases.
  destruct (Page.select_todos supabase userId) as [data [e|]|e];
    eexists _, _; (split; [reflexivity|]); simpl;
    (split; [done|]); (split; [done|]); (split; [done|]); (split; [done|]);
    split;
    first [ by intros data' [=]
          | by intros data' [= ->]
          | by intros e' [[=]|[data' [=]]]
          | intros e' _; split; [done|step_in] ].
Qed.

(** X10. A toggle that has nothing to do makes no remote call and leaves
    the state alone: signed out it only alerts, and for an id that no
    task of the list has it does nothing at all. *)
Theorem toggle_without_effect (σ : Page.State) (id' : string) :
  (Page.user σ = None →
     Page.handleToggleComplete supabase id' σ
     = ([Page.alert "로그인이 필요합니다."], σ, Eff.Return tt)) ∧
  (∀ u, Page.user σ = Some u → (∀ t, t ∈ Page.todos σ → id t ≠ id') →
     Page.handleToggleComplete supabase id' σ = ([], σ, Eff.Return tt)).
Proof.
  unfold Page.handleToggleComplete, Eff.bind, Eff.get, Eff.try_catch. split.
  - intros ->. reflexivity.
  - intros u -> Hnone.
    destruct (List.find _ (Page.todos σ)) as [todo|] eqn:Hfind; [|done].
    apply find_some in Hfind as [Hin Hid%bool_decide_eq_true].
    destruct (Hnone todo); [by apply list_elem_of_In|done].
Qed.

(** X11. Toggling twice is a round trip: the updater of the toggle is
    its own inverse, and two toggles of one id that the server confirms
    bring the list back to what it was. *)
Theorem toggle_twice_restores_list (σ : Page.State) (u : User.t) (id' : string) :
  Page.user σ = Some u →
  (∀ c, ∃ data, Page.update_completed supabase id' c (User.id u)
                  = Page.answered data None) →
  Page.toggled id' (Page.toggled id' (Page.todos σ)) = Page.todos σ ∧
  ∃ tr1 σ1 tr2 σ2,
    Page.handleToggleComplete supabase id' σ = (tr1, σ1, Eff.Return tt) ∧
    Page.handleToggleComplete supabase id' σ1 = (tr2, σ2, Eff.Return tt) ∧
    Page.todos σ2 = Page.todos σ.
Proof.
  intros Hu Hserver. split; [apply toggled_involutive|].
  destruct (List.find (λ t, bool_decide (id t = id')) (Page.todos σ))
    as [todo|] eqn:Hfind.
  - destruct (Hserver (negb (completed todo))) as [data Hans].
    pose proof (handleToggleComplete_confirmed supabase σ u id' todo data Hu
                  Hfind Hans) as Hrun1.
    match type of Hrun1 with
    | _ = (?tr, ?s1, _) => set (σ1 := s1) in *; set (tr1 := tr) in *
    end.
    assert (Page.user σ1 = Some u) as Hu1 by done.
    destruct (List.find (λ t, bool_decide (id t = id')) (Page.todos σ1))
      as [todo1|] eqn:Hfind1.
    + destruct (Hserver (negb (completed todo1))) as [data1 Hans1].
      pose proof (handleToggleComplete_confirmed supabase σ1 u id' todo1 data1
                    Hu1 Hfind1 Hans1) as Hrun2.
      eexists tr1, σ1, _, _. split; [exact Hrun1|]. split; [exact Hrun2|].
      simpl. apply toggled_involutive.
    + exfalso. apply find_some in Hfind as [Hin Hid].
      assert (In (Page.flip_completed todo) (Page.todos σ1)) as Hin1.
      { simpl. unfold Page.toggled. apply in_map_iff. exists todo.
        split; [by rewrite Hid|done]. }
      pose proof (find_none _ _ Hfind1 _ Hin1) as Hnone. simpl in Hnone.
      congruence.
  - assert (Page.handleToggleComplete supabase id' σ = ([], σ, Eff.Return tt)) as Hrun.
    { unfold Page.handleToggleComplete, Eff.bind, Eff.get, Eff.try_catch.
      by rewrite Hu, Hfind. }
    eexists _, _, _, _. rewrite Hrun. repeat split. by rewrite Hrun.
Qed.

End PageHandlers.

Section PageSubmit.
Variable supabase : Page.Supabase.

Lemma fetchTodos_no_throw (σ : Page.State) (userId : string) :
  ∃ tr σ',
    Page.fetchTodos supabase userId σ = (tr, σ', Eff.Return tt) ∧
    Page.await_select userId ∈ tr ∧
    Page.user σ' = Page.user σ ∧
    Page.editingTodo σ' = Page.editingTodo σ ∧
    Page.isFormLoading σ' = Page.isFormLoading σ.
Proof.
  rewrite fetchTodos_cases.
  destruct (Page.select_todos supabase userId) as [data [e|]|e];
    eexists _, _; (split; [reflexivity|]); simpl; (split; [step_in|done]).
Qed.


End PageSubmit.

Section PageSubmitProperties.
Variable supabase : Page.Supabase.



End PageSubmitProperties.

(** ** Deleting, mounting, signing out *)

Section HomeHandlers.
Variable w : Home.World.

(** X14. Without consent nothing is deleted: signed out the handler only
    alerts, and when the user answers the confirm box with "no" it stops
    there; in both cases no delete is sent and the state is untouched. *)
Theorem delete_needs_consent (σ : Page.State) (id' : string) :
  (Page.user σ = None →
     Home.handleDelete w id' σ
     = ([Home.page_step (Page.alert "로그인이 필요합니다.")], σ, Eff.Return tt)) ∧
  (∀ u, Page.user σ = Some u →
     Home.confirm_answer w "정말 삭제하시겠습니까?" = false →
     Home.handleDelete w id' σ
     = ([Home.confirm "정말 삭제하시겠습니까?"], σ, Eff.Return tt)).
Proof.
  unfold Home.handleDelete, Eff.bind, Eff.get, Eff.emit. split.
  - by intros ->.
  - intros u -> Hno. simpl. by rewrite Hno.
Qed.

(** X15. A delete the user consents to and the server confirms removes
    from the local list exactly the tasks with that id, keeps the others
    in their order, ends the edit mode if (and only if) the task being
    edited is the deleted one, and fetches nothing.  A delete the server
    fails leaves the whole state as it was and is reported by an alert. *)
Theorem delete_outcome (σ : Page.State) (u : User.t) (id' : string) :
  Page.user σ = Some u →
  Home.confirm_answer w "정말 삭제하시겠습니까?" = true →
  let answer := Home.delete_todo w id' (User.id u) in
  (∀ rows, answer = Page.answered rows None →
     ∃ tr σ',
       Home.handleDelete w id' σ
         = ([Home.confirm "정말 삭제하시겠습니까?";
             Home.await_delete id' (User.id u)] ++ tr, σ', Eff.Return tt) ∧
       (∀ t, t ∈ Page.todos σ' ↔ t ∈ Page.todos σ ∧ id t ≠ id') ∧
       Page.todos σ' `sublist_of` Page.todos σ ∧
       Page.editingTodo σ'
         = match Page.editingTodo σ with
           | Some editing =>
               if bool_decide (id editing = id') then None else Some editing
           | None => None
           end ∧
       Page.user σ' = Page.user σ ∧
       (∀ userId, Home.page_step (Page.await_select userId) ∉ tr)) ∧
  (∀ e, Rows.failed answer e →
     Home.handleDelete w id' σ
       = ([Home.confirm "정말 삭제하시겠습니까?";
           Home.await_delete id' (User.id u);
           Home.page_step (Page.console_error "할 일 삭제 실패:" e);
           Home.page_step (Page.alert "할 일을 삭제하는 중 오류가 발생했습니다.")],
          σ, Eff.Return tt)).
Proof.
  intros Hu Hyes answer. subst answer.
  destruct σ as [usr tds ed ld fl]; simpl in *. subst usr.
  unfold Home.handleDelete, Eff.bind, Eff.get, Eff.emit, Eff.try_catch. simpl.
  rewrite Hyes. simpl. split.
  - intros rows ->. simpl.
    destruct ed as [editing|]; simpl;
      [destruct (bool_decide (id editing = id')); simpl|];
      (eexists _, _; split; [reflexivity|]; simpl;
       split; [|split; [apply List_filter_sublist|]; split; [done|];
                split; [done|intros userId; step_not_in]]);
      intros t; rewrite elem_of_List_filter, negb_true_iff, bool_decide_eq_false;
      done.
  - intros e [->|[rows ->]]; reflexivity.
Qed.

(** X16. On mount the page asks for the session first.  Without a user
    it redirects to the login page and asks for no task; with a user it
    stores the user and then fetches the list for the id of that user. *)
Theorem mount_checks_session (σ : Page.State) :
  (Home.getUser w = inr None →
     Home.checkUserAndFetchTodos w σ
     = ([Home.await_getUser; Home.router_push "/login"], σ, Eff.Return tt)) ∧
  (∀ u, Home.getUser w = inr (Some u) →
     ∃ tr σ',
       Home.checkUserAndFetchTodos w σ
         = ([Home.await_getUser; Home.set_user u] ++ List.map Home.page_step tr,
            σ', Eff.Return tt) ∧
       Page.fetchTodos (Home.supabase w) (User.id u)
         {| Page.user := Some u; Page.todos := Page.todos σ;
            Page.editingTodo := Page.editingTodo σ;
            Page.isLoadingTodos := Page.isLoadingTodos σ;
            Page.isFormLoading := Page.isFormLoading σ |}
       = (tr, σ', Eff.Return tt) ∧
       Page.user σ' = Some u ∧
       Page.await_select (User.id u) ∈ tr).
Proof.
  unfold Home.checkUserAndFetchTodos, Eff.bind, Eff.emit. split.
  - by intros ->.
  - intros u ->. simpl. unfold Home.lift, lift_steps.
    destruct (fetchTodos_no_throw (Home.supabase w)
                {| Page.user := Some u; Page.todos := Page.todos σ;
                   Page.editingTodo := Page.editingTodo σ;
                   Page.isLoadingTodos := Page.isLoadingTodos σ;
                   Page.isFormLoading := Page.isFormLoading σ |} (User.id u))
      as (tr & σ' & Hrun & Hsel & Hu & _).
    rewrite Hrun. by exists tr, σ'.
Qed.

(** X17. Signing out from the page: answered "no", nothing happens; else
    the handler never throws and ends with its flag off, and it leaves
    for the login page exactly when the sign-out went through; a failed
    sign-out is reported by an alert. *)
Theorem page_logout_outcome (σ : bool) :
  (Home.confirm_answer w "로그아웃하시겠습니까?" = false →
     Home.handleLogout w σ
     = ([Home.confirm "로그아웃하시겠습니까?"], σ, Eff.Return tt)) ∧
  (Home.confirm_answer w "로그아웃하시겠습니까?" = true →
     ∃ tr,
       Home.handleLogout w σ = (tr, false, Eff.Return tt) ∧
       Home.await_signOut ∈ tr ∧
       (Home.router_push "/login" ∈ tr ↔ Home.signOut w = Home.auth_answered None) ∧
       (Home.signOut w ≠ Home.auth_answered None →
          ∃ msg, Home.page_step (Page.alert ("로그아웃 실패: " +:+ msg)) ∈ tr)).
Proof.
  unfold Home.handleLogout, Eff.bind, Eff.emit, Eff.try_finally, Eff.try_catch.
  simpl. split.
  - by intros ->.
  - intros ->. simpl.
    destruct (Home.signOut w) as [[e|]|e]; simpl;
      (eexists; split; [reflexivity|]; split; [step_in|]; split;
       [split; [step_not_in || (intros _; done) || done|
                first [done | intros _; step_in]]|]).
    all: first [ by intros [] | intros _; eexists; step_in ].
Qed.

End HomeHandlers.

(** X18. The sign-out button: the handler never throws and ends with its
    loading flag off; it leaves for the login page exactly when the
    sign-out went through, and then shows no error; a failed sign-out
    keeps the page, stores the message and reports it by an alert. *)
Theorem logout_button_outcome (signOut : Home.AuthAnswer) (σ : LogoutButton.State) :
  ∃ tr σ',
    LogoutButton.handleLogout signOut σ = (tr, σ', Eff.Return tt) ∧
    LogoutButton.isLoading σ' = false ∧
    (signOut = Home.auth_answered None →
       LogoutButton.error σ' = None ∧
       tr = [Home.await_signOut; Home.router_push "/login"; Home.router_refresh]) ∧
    (signOut ≠ Home.auth_answered None →
       ∃ msg, LogoutButton.error σ' = Some msg ∧
              Home.page_step (Page.alert ("로그아웃 실패: " +:+ msg)) ∈ tr ∧
              ∀ path, Home.router_push path ∉ tr).
Proof.
  unfold LogoutButton.handleLogout, Eff.bind, Eff.emit, Eff.try_finally,
    Eff.try_catch.
  destruct σ as [ld err]. simpl.
  destruct signOut as [[e|]|e]; simpl;
    (eexists _, _; split; [reflexivity|]; split; [done|]; split;
     [first [done | by intros [=]]|]).
  all: first [ by intros []
             | intros _; eexists; split; [reflexivity|];
               split; [step_in|intros path; step_not_in] ].
Qed.

(** ** The fields and the submit of the form *)

Lemma elem_of_toggledCategories (category c : TodoCategory) (prev : list TodoCategory) :
  c ∈ FormFields.toggledCategories category prev ↔
    (c ≠ category ∧ c ∈ prev) ∨ (c = category ∧ category ∉ prev).
Proof.
  unfold FormFields.toggledCategories. case_bool_decide as Hin.
  - rewrite elem_of_List_filter, negb_true_iff, bool_decide_eq_false.
    split; [intros [? ?]; by left|intros [[? ?]|[_ ?]]; done].
  - rewrite elem_of_app, list_elem_of_singleton. split.
    + intros [Hc| ->]; [left; split; [by intros ->|done]|by right].
    + intros [[_ ?]|[-> _]]; [by left|by right].
Qed.

(** X19. Ticking a category box flips that category and no other: after
    [toggleCategory c] the category [c] is selected exactly if it was not
    before, every other category is as before, a selection without
    repetition stays without repetition, the [category] of the form data
    is the new selection, and no other field of the form changes. *)
Theorem toggleCategory_flips_one (σ : Form.State) (category : TodoCategory) :
  ∃ σ',
    FormFields.toggleCategory category σ = ([], σ', Eff.Return tt) ∧
    (category ∈ Form.selectedCategories σ' ↔ category ∉ Form.selectedCategories σ) ∧
    (∀ c, c ≠ category →
       (c ∈ Form.selectedCategories σ' ↔ c ∈ Form.selectedCategories σ)) ∧
    (NoDup (Form.selectedCategories σ) → NoDup (Form.selectedCategories σ')) ∧
    TodoInput.category (Form.formData σ') = Some (Form.selectedCategories σ') ∧
    TodoInput.title (Form.formData σ') = TodoInput.title (Form.formData σ) ∧
    TodoInput.description (Form.formData σ') = TodoInput.description (Form.formData σ) ∧
    TodoInput.due_date (Form.formData σ') = TodoInput.due_date (Form.formData σ) ∧
    TodoInput.priority (Form.formData σ') = TodoInput.priority (Form.formData σ) ∧
    Form.aiInput σ' = Form.aiInput σ.
Proof.
  eexists. split; [reflexivity|]. simpl.
  split; [|split; [|split; [|done]]].
  - rewrite elem_of_toggledCategories. split.
    + by intros [[? _]|[_ ?]].
    + intros ?. by right.
  - intros c Hc. rewrite elem_of_toggledCategories. split.
    + by intros [[_ ?]|[? _]].
    + intros ?. by left.
  - intros Hnodup. unfold FormFields.toggledCategories. case_bool_decide as Hin.
    + apply NoDup_ListNoDup, List.NoDup_filter. by apply NoDup_ListNoDup.
    + apply NoDup_app. split; [done|]. split; [|apply NoDup_singleton].
      intros c Hc ->%list_elem_of_singleton. done.
Qed.

(** X20. The manual submit of the form changes no state and hands over
    at most one record: none when the title is blank, and otherwise the
    form data with the ticked categories as its [category]. *)
Theorem manual_submit_outcome (σ : Form.State) :
  ∃ tr,
    Form.handleSubmit σ = (tr, σ, Eff.Return tt) ∧
    (JS.truthy (JS.trim (TodoInput.title (Form.formData σ))) = false → tr = []) ∧
    (JS.truthy (JS.trim (TodoInput.title (Form.formData σ))) = true →
       ∃ data,
         tr = [Form.onSubmit data] ∧
         TodoInput.title data = TodoInput.title (Form.formData σ) ∧
         TodoInput.description data = TodoInput.description (Form.formData σ) ∧
         TodoInput.due_date data = TodoInput.due_date (Form.formData σ) ∧
         TodoInput.priority data = TodoInput.priority (Form.formData σ) ∧
         TodoInput.category data = Some (Form.selectedCategories σ)).
Proof.
  unfold Form.handleSubmit, Eff.bind, Eff.get, Eff.emit. simpl.
  destruct (JS.truthy (JS.trim (TodoInput.title (Form.formData σ)))); simpl;
    eexists; (split; [reflexivity|]); split; try done.
  intros _. by eexists.
Qed.

Section AiGenerateProperties.
Variable fetch_parse_todo : string → Form.FetchAnswer.

Lemma handleAiGenerate_failed (autoSubmit : bool) (σ : Form.State) (e : Thrown) :
  JS.truthy (JS.trim (Form.aiInput σ)) = true →
  AiAnswer.thrown (fetch_parse_todo (Form.aiInput σ)) = Some e →
  Form.handleAiGenerate fetch_parse_todo autoSubmit σ =
    ([Form.await_fetch_parse_todo (Form.aiInput σ);
      Form.console_error "AI generation error:" e;
      Form.toast_error (AiAnswer.message e)],
     AiAnswer.generating false σ, Eff.Return tt).
Proof.
  intros Hinput Hthrown.
  unfold Form.handleAiGenerate, Eff.bind, Eff.get, Eff.try_finally,
    Eff.try_catch, Eff.emit.
  rewrite Hinput. simpl.
  destruct (fetch_parse_todo (Form.aiInput σ)) as [e'|[e'|error]|[e'|result]];
    simpl in *; try discriminate; injection Hthrown as <-; reflexivity.
Qed.

(** A blank AI text is not sent anywhere: the handler shows its error
    toast and stops, with the state as it was. *)
Lemma ai_generate_blank_input_aux (autoSubmit : bool) (σ : Form.State) :
  JS.truthy (JS.trim (Form.aiInput σ)) = false →
  Form.handleAiGenerate fetch_parse_todo autoSubmit σ
  = ([Form.toast_error "할 일 내용을 입력해주세요."], σ, Eff.Return tt).
Proof.
  intros Hblank. unfold Form.handleAiGenerate, Eff.bind, Eff.get.
  by rewrite Hblank.
Qed.


(** X22. Whatever the endpoint answers, [handleAiGenerate] never throws,
    asks the endpoint at most once and with the AI text as typed, and
    submits only what it generated: a record is handed to the submit
    handler only with auto-submit on and a readable ok response, and it
    is the record made from that response.  After a run on a non-blank
    text the busy flag is off. *)
Theorem ai_generate_submits_only_generated (autoSubmit : bool) (σ : Form.State) :
  ∃ tr σ',
    Form.handleAiGenerate fetch_parse_todo autoSubmit σ = (tr, σ', Eff.Return tt) ∧
    (JS.truthy (JS.trim (Form.aiInput σ)) = true → Form.isAiGenerating σ' = false) ∧
    (∀ input, Form.await_fetch_parse_todo input ∈ tr → input = Form.aiInput σ) ∧
    (length (List.filter (λ s, match s with
                               | Form.await_fetch_parse_todo _ => true
                               | _ => false
                               end) tr) ≤ 1)%nat ∧
    (∀ data, Form.onSubmit data ∈ tr →
       autoSubmit = true ∧
       ∃ result, fetch_parse_todo (Form.aiInput σ) = Form.response_ok (inr result) ∧
                 data = Form.generatedData result).
Proof.
  destruct (JS.truthy (JS.trim (Form.aiInput σ))) eqn:Hinput.
  - destruct (AiAnswer.thrown (fetch_parse_todo (Form.aiInput σ))) as [e|] eqn:Hthrown.
    + rewrite (handleAiGenerate_failed autoSubmit σ e Hinput Hthrown).
      eexists _, _. split; [reflexivity|]. split; [done|]. split.
      { intros input [[= ->]|Hin]%elem_of_cons; [done|]. revert Hin. step_not_in. }
      split; [simpl; lia|]. intros data. step_not_in.
    + destruct (fetch_parse_todo (Form.aiInput σ)) as [e'|[e'|error]|[e'|result]]
        eqn:Hans; try discriminate.
      destruct autoSubmit.
      * rewrite (handleAiGenerate_auto fetch_parse_todo σ result Hinput Hans).
        eexists _, _. split; [reflexivity|]. split; [done|]. split.
        { intros input [[= ->]|Hin]%elem_of_cons; [done|]. revert Hin. step_not_in. }
        split; [simpl; lia|].
        intros data Hin. split; [done|]. exists result. split; [done|].
        repeat (apply elem_of_cons in Hin as [Hin|Hin]; try discriminate Hin).
        -- by injection Hin.
        -- by apply elem_of_nil in Hin.
      * rewrite (handleAiGenerate_fill fetch_parse_todo σ result Hinput Hans).
        eexists _, _. split; [reflexivity|]. split; [done|]. split.
        { intros input [[= ->]|Hin]%elem_of_cons; [done|]. revert Hin. step_not_in. }
        split; [simpl; lia|]. intros data. step_not_in.
  - rewrite (ai_generate_blank_input_aux autoSubmit σ Hinput).
    eexists _, _. split; [reflexivity|]. split; [done|].
    split; [intros input; step_not_in|]. split; [simpl; lia|].
    intros data. step_not_in.
Qed.

End AiGenerateProperties.

(** ** Opening a task in the form *)

Section EditForm.
Variable Date_toISOString : string → Thrown + string.

Lemma or_null_opt_str_or (x : option string) :
  Page.or_null (Some (JS.opt_str_or x "")) = Page.or_null x.
Proof. by destruct x as [[|c s]|]. Qed.

(** X23. Opening a task in the form and saving it unchanged writes the
    task back: for a task with a title that is not blank (and a due date
    that is a date, if it has one) the effect fills the form, the manual
    submit hands over one record, and the fields the page sends for it
    are the title, the description (an empty one as null), the priority
    (medium if absent) and the categories (none if absent) of the task;
    the due date sent is the first 16 characters of its UTC date-time
    string, and null if the task has none. *)
Theorem edit_round_trip (σ : Form.State) (d : Todo) :
  JS.truthy (JS.trim (title d)) = true →
  (JS.truthy_opt (due_date d) = true →
     ∃ iso, Date_toISOString (JS.opt_or (due_date d) "") = inr iso) →
  ∃ σ1 data,
    FormFields.loadInitialData Date_toISOString (Some d) σ = ([], σ1, Eff.Return tt) ∧
    Form.handleSubmit σ1 = ([Form.onSubmit data], σ1, Eff.Return tt) ∧
    Page.row_title (Rows.updated data) = title d ∧
    Page.row_description (Rows.updated data) = Page.or_null (description d) ∧
    Page.row_priority (Rows.updated data) = JS.opt_or (priority d) medium ∧
    Page.row_category (Rows.updated data) = JS.opt_or (category d) [] ∧
    (JS.truthy_opt (due_date d) = false →
       Page.row_due_date (Rows.updated data) = None) ∧
    (∀ iso, JS.truthy_opt (due_date d) = true →
            Date_toISOString (JS.opt_or (due_date d) "") = inr iso →
            Page.row_due_date (Rows.updated data)
            = Page.or_null (Some (String.substring 0 16 iso))).
Proof.
  intros Htitle Hdue.
  unfold FormFields.loadInitialData, Eff.bind, Form.json.
  destruct (JS.truthy_opt (due_date d)) eqn:Htruthy.
  - destruct Hdue as [iso Hiso]; [done|]. rewrite Hiso. simpl.
    eexists _, _. split; [reflexivity|].
    unfold Form.handleSubmit, Eff.bind, Eff.get, Eff.emit. simpl.
    rewrite Htitle. simpl. split; [reflexivity|]. simpl.
    split; [done|]. split; [apply or_null_opt_str_or|].
    split; [done|]. split; [done|]. split; [done|].
    intros iso' _ [= ->]. done.
  - simpl. eexists _, _. split; [reflexivity|].
    unfold Form.handleSubmit, Eff.bind, Eff.get, Eff.emit. simpl.
    rewrite Htitle. simpl. split; [reflexivity|]. simpl.
    split; [done|]. split; [apply or_null_opt_str_or|].
    split; [done|]. split; [done|]. split; [done|].
    by intros iso' [=].
Qed.

(** X24. The edges of that effect: without a task to edit it leaves the
    form as it is (so after a cancelled edit the fields keep what they
    held), and for a task whose due date is not a date the conversion
    throws and the form is left unfilled. *)
Theorem edit_effect_edges (σ : Form.State) :
  FormFields.loadInitialData Date_toISOString None σ = ([], σ, Eff.Return tt) ∧
  (∀ d e, JS.truthy_opt (due_date d) = true →
          Date_toISOString (JS.opt_or (due_date d) "") = inl e →
          FormFields.loadInitialData Date_toISOString (Some d) σ
          = ([], σ, Eff.Throw e)).
Proof.
  split; [reflexivity|]. intros d e Htruthy Hthrows.
  unfold FormFields.loadInitialData, Eff.bind, Form.json.
  by rewrite Htruthy, Hthrows.
Qed.

End EditForm.

(** ** The parsing endpoint: every request *)

Section EndpointTotal.
Variable w : Route.World.

(** What the [try] block of the route does with a request. *)
Lemma post_try_cases (request_json : Thrown + Route.JSON) :
  let body := Worlds.try_block w request_json in
  match Worlds.good_input request_json with
  | Some input =>
      if JS.truthy_opt (Route.GOOGLE_GENERATIVE_AI_API_KEY w)
      then
        body () =
          ([Route.await_generateObject (Route.todayStr w) (Route.currentTime w) input],
           (),
           match Route.generateObject w (Route.todayStr w) (Route.currentTime w) input with
           | inr object =>
               Eff.Return {| Route.body := Route.object_body object;
                             Route.status := 200 |}
           | inl e => Eff.Throw e
           end)
      else
        body () =
          ([Route.console_error "GOOGLE_GENERATIVE_AI_API_KEY is not set" None], (),
           Eff.Return {| Route.body :=
                           Route.error_body "AI 서비스가 설정되지 않았습니다.";
                         Route.status := 500 |})
  | None =>
      (∃ msg, body () = ([], (), Eff.Return {| Route.body := Route.error_body msg;
                                               Route.status := 400 |})) ∨
      (∃ e, body () = ([], (), Eff.Throw e))
  end.
Proof.
  intros body. subst body. unfold Worlds.good_input, Worlds.try_block.
  destruct request_json as [e|parsed].
  { right. by exists e. }
  destruct parsed as [|b|n|s|items|fields];
    try (left; by eexists); try (right; by eexists).
  cbn [Route.of_result]. rewrite bind_ret_l.
  cbn [Route.destructure_input]. rewrite bind_ret_l.
  generalize (Route.get_field "input" fields). intros input.
  destruct input as [[|b|n|s|items|fields']|]; simpl;
    try destruct b; try destruct (n =? 0); simpl;
    try (left; by eexists).
  destruct (JS.truthy s) eqn:Hs; simpl.
  - unfold JS.truthy. destruct (JS.trim s) as [|c t] eqn:Htrim; simpl;
      [left; by eexists|].
    destruct (JS.truthy_opt (Route.GOOGLE_GENERATIVE_AI_API_KEY w)); simpl;
      [|reflexivity].
    unfold Eff.bind, Eff.emit, Route.of_result. simpl.
    by destruct (Route.generateObject w (Route.todayStr w) (Route.currentTime w) s).
  - destruct s; [|done]. simpl. left. by eexists.
Qed.

Lemma POST_unfold (request_json : Thrown + Route.JSON) :
  Route.POST w request_json =
    Eff.try_catch (Worlds.try_block w request_json) (Worlds.catch_block w).
Proof. reflexivity. Qed.

Lemma catch_block_responds (error : Thrown) :
  ∃ tr msg,
    Worlds.catch_block w error ()
    = (tr, (), Eff.Return {| Route.body := Route.error_body msg;
                             Route.status := 500 |}).
Proof. apply catch_responds_500. Qed.

(** X25. The route answers every request: whatever the body, the
    credential and the model do, [POST] returns a response and throws
    nothing, its status is 200, 400 or 500, a 200 carries the object of
    the model and a 400 or 500 carries an error message. *)
Theorem post_always_responds (request_json : Thrown + Route.JSON) :
  ∃ tr resp,
    Route.POST w request_json () = (tr, (), Eff.Return resp) ∧
    ((Route.status resp = 200 ∧ ∃ object, Route.body resp = Route.object_body object) ∨
     ((Route.status resp = 400 ∨ Route.status resp = 500) ∧
      ∃ msg, Route.body resp = Route.error_body msg)).
Proof.
  rewrite POST_unfold. unfold Eff.try_catch.
  pose proof (post_try_cases request_json) as Hbody. simpl in Hbody.
  destruct (Worlds.good_input request_json) as [input|].
  - destruct (JS.truthy_opt (Route.GOOGLE_GENERATIVE_AI_API_KEY w)).
    + rewrite Hbody.
      destruct (Route.generateObject w (Route.todayStr w) (Route.currentTime w) input)
        as [e|object].
      * destruct (catch_block_responds e) as (tr & msg & ->).
        eexists _, _. split; [reflexivity|]. right. simpl. split; [by right|by eexists].
      * eexists _, _. split; [reflexivity|]. left. simpl. split; [done|by eexists].
    + rewrite Hbody. eexists _, _. split; [reflexivity|]. right. simpl.
      split; [by right|by eexists].
  - destruct Hbody as [[msg ->]|[e ->]].
    + eexists _, _. split; [reflexivity|]. right. simpl. split; [by left|by eexists].
    + destruct (catch_block_responds e) as (tr & msg & ->).
      eexists _, _. split; [reflexivity|]. right. simpl. split; [by right|by eexists].
Qed.

End EndpointTotal.

Section EndpointCalls.
Variable w : Route.World.

Lemma forEach_log_run (models : list Route.Model) :
  ∃ tr, Route.forEach_log models () = (tr, (), Eff.Return ()) ∧
        Forall (λ s, Worlds.logs s = true) tr.
Proof.
  induction models as [|model models (tr & IH & Hlogs)]; [by exists []|].
  cbn [Route.forEach_log]. unfold Eff.bind, Eff.emit in *.
  destruct (Route.supports_generateContent model); simpl; rewrite IH;
    eexists; (split; [reflexivity|]); repeat constructor; done.
Qed.

Lemma compatibleModels_run (models : list Route.Model) :
  ∃ o, Route.compatibleModels models () = ([], (), o).
Proof.
  induction models as [|model models [o IH]]; [by eexists|].
  cbn [Route.compatibleModels].
  destruct (Route.supports_generateContent model); [|by eexists].
  destruct (Route.name model); [|by eexists].
  unfold Eff.bind. rewrite IH. destruct o; by eexists.
Qed.

(** The listing: one request for the models, and log lines. *)
Lemma list_available_models_run :
  ∃ tr,
    Route.list_available_models w ()
    = (Route.console_log "Model not found. Fetching available models..."
       :: Route.await_fetch_models (Route.GOOGLE_GENERATIVE_AI_API_KEY w) :: tr,
       (), Eff.Return ()) ∧
    Forall (λ s, Worlds.logs s = true) tr.
Proof.
  unfold Route.list_available_models, Route.fetch_and_log_models, Eff.try_catch,
    Eff.bind at 1 2, Eff.emit.
  destruct (Route.listModels w (Route.GOOGLE_GENERATIVE_AI_API_KEY w))
    as [e|st|[e|[models|]]]; simpl;
    try (eexists; split; [reflexivity|]; repeat constructor; done).
  unfold Eff.bind, Eff.emit. simpl.
  destruct (forEach_log_run models) as (tr1 & -> & Hlogs1).
  destruct (compatibleModels_run models) as [[names|e] ->]; simpl;
    (eexists; split; [reflexivity|]);
    repeat (rewrite Forall_cons || rewrite Forall_app);
    repeat split; by try apply Forall_nil.
Qed.

(** The [catch] block: the response depends on what was thrown alone;
    the models are asked for after a 404 only. *)
Lemma catch_run (error : Thrown) :
  ∃ tr,
    Worlds.catch_block w error ()
    = (tr, (), Eff.Return (Worlds.failure_response error)) ∧
    (∀ a b c, Route.await_generateObject a b c ∉ tr) ∧
    (∀ k, Route.await_fetch_models k ∈ tr → Route.has_statusCode_404 error = true).
Proof.
  unfold Worlds.catch_block, Eff.bind, Eff.emit. simpl.
  destruct (Route.has_statusCode_404 error) eqn:H404.
  - destruct list_available_models_run as (tr & -> & Hlogs).
    exists (Route.console_error "Parse todo error:" (Some error)
            :: Route.console_log "Model not found. Fetching available models..."
            :: Route.await_fetch_models (Route.GOOGLE_GENERATIVE_AI_API_KEY w)
            :: tr).
    split; [destruct error; simpl; by rewrite ?app_nil_r|]. split; [|done].
    intros a b c Hin.
    repeat (apply elem_of_cons in Hin as [Hin|Hin]; [discriminate Hin|]).
    eapply Forall_forall in Hlogs; [|exact Hin]. done.
  - exists [Route.console_error "Parse todo error:" (Some error)].
    split; [by destruct error|]. split.
    + intros a b c. step_not_in.
    + intros k. step_not_in.
Qed.

(** X26. The model is asked only for a request the route accepts: a step
    [generateObject] is in the run only when the body is an object whose
    [input] is a string that is not blank and the credential is set, it
    is then the only such step, and it carries the input as it came
    (untrimmed) with the date and time of the request.  When the model
    answers, the response is 200 with the object of the model. *)
Theorem post_asks_model_only_for_good_input (request_json : Thrown + Route.JSON) :
  (∀ tr resp a b c,
     Route.POST w request_json () = (tr, (), Eff.Return resp) →
     Route.await_generateObject a b c ∈ tr →
     Worlds.good_input request_json = Some c ∧
     JS.truthy_opt (Route.GOOGLE_GENERATIVE_AI_API_KEY w) = true ∧
     a = Route.todayStr w ∧ b = Route.currentTime w ∧
     ∃ tr', tr = Route.await_generateObject a b c :: tr' ∧
            ∀ a' b' c', Route.await_generateObject a' b' c' ∉ tr') ∧
  (∀ input object,
     Worlds.good_input request_json = Some input →
     JS.truthy_opt (Route.GOOGLE_GENERATIVE_AI_API_KEY w) = true →
     Route.generateObject w (Route.todayStr w) (Route.currentTime w) input
       = inr object →
     Route.POST w request_json ()
     = ([Route.await_generateObject (Route.todayStr w) (Route.currentTime w) input],
        (), Eff.Return {| Route.body := Route.object_body object;
                          Route.status := 200 |})).
Proof.
  rewrite POST_unfold. unfold Eff.try_catch.
  pose proof (post_try_cases w request_json) as Hbody. simpl in Hbody.
  destruct (Worlds.good_input request_json) as [input|].
  - destruct (JS.truthy_opt (Route.GOOGLE_GENERATIVE_AI_API_KEY w)).
    + rewrite Hbody.
      destruct (Route.generateObject w (Route.todayStr w) (Route.currentTime w) input)
        as [e|object] eqn:Hgen.
      * destruct (catch_run e) as (tr & -> & Hnone & _).
        split; [|intros input' object' [= <-] _ Hgen'; congruence].
        intros tr0 resp a b c [= <- <-] [Hin|Hin]%elem_of_cons.
        -- injection Hin as -> -> ->. repeat split. by eexists.
        -- by apply Hnone in Hin.
      * split.
        -- intros tr0 resp a b c [= <- <-] [Hin|Hin]%elem_of_cons.
           ++ injection Hin as -> -> ->. repeat split. eexists. split; [done|].
              intros a' b' c'. step_not_in.
           ++ by apply elem_of_nil in Hin.
        -- intros input' object' [= <-] _ Hgen'. congruence.
    + rewrite Hbody. split; [|done].
      intros tr0 resp a b c [= <- <-]. step_not_in.
  - split; [|done].
    destruct Hbody as [[msg ->]|[e ->]].
    + intros tr0 resp a b c [= <- <-]. step_not_in.
    + destruct (catch_run e) as (tr & -> & Hnone & _).
      intros tr0 resp a b c [= <- <-] Hin. by apply Hnone in Hin.
Qed.

End EndpointCalls.

(** X27. The listing of models is diagnostics only.  It is requested
    only after something with status code 404 was thrown (the request
    then ends in a 500), and whatever the listing answers, or however it
    fails, the response of the route is the same. *)
Theorem post_listing_is_diagnostic_only (w : Route.World)
    (listModels : option string → Route.ModelsAnswer)
    (request_json : Thrown + Route.JSON) :
  (Route.POST (Worlds.with_listing listModels w) request_json ()).2
    = (Route.POST w request_json ()).2 ∧
  (∀ tr resp k,
     Route.POST w request_json () = (tr, (), Eff.Return resp) →
     Route.await_fetch_models k ∈ tr →
     Route.status resp = 500 ∧
     ∃ e, Route.has_statusCode_404 e = true ∧ resp = Worlds.failure_response e).
Proof.
  rewrite !POST_unfold. unfold Eff.try_catch.
  change (Worlds.try_block (Worlds.with_listing listModels w) request_json)
    with (Worlds.try_block w request_json).
  pose proof (post_try_cases w request_json) as Hbody. simpl in Hbody.
  assert (∀ tr o k, Worlds.try_block w request_json () = (tr, (), o) →
                    Route.await_fetch_models k ∉ tr) as Hquiet.
  { intros tr o k Hrun. rewrite Hrun in Hbody.
    destruct (Worlds.good_input request_json) as [input|].
    - destruct (JS.truthy_opt (Route.GOOGLE_GENERATIVE_AI_API_KEY w));
        injection Hbody as -> _; step_not_in.
    - destruct Hbody as [[msg [= -> _]]|[e [= -> _]]]; step_not_in. }
  destruct (Worlds.try_block w request_json ()) as [[tr []] [resp|e]] eqn:Hrun.
  - split; [done|]. intros tr0 resp0 k [= <- <-] Hin.
    by eapply Hquiet in Hin.
  - destruct (catch_run w e) as (tr1 & -> & _ & H404).
    destruct (catch_run (Worlds.with_listing listModels w) e) as (tr2 & -> & _).
    split; [done|].
    intros tr0 resp k [= <- <-] [Hin|Hin]%elem_of_app.
    + by eapply Hquiet in Hin.
    + split; [by destruct e|]. exists e. split; [by eapply H404|done].
Qed.

(** ** The sign-up and sign-in pages *)

Section SignupProperties.
Context {rt : JS.Runtime}.
Variable signUp : string → string → Auth.Answer.

(** The run of the sign-up handler, case by case. *)
Lemma signup_cases (σ : Signup.State) :
  let shown err succ loading :=
    {| Signup.email := Signup.email σ; Signup.password := Signup.password σ;
       Signup.confirmPassword := Signup.confirmPassword σ;
       Signup.isLoading := loading;
       Signup.error := err; Signup.successMessage := succ |} in
  let call := Auth.await_signUp (Signup.email σ) (Signup.password σ) in
  Signup.handleSubmit signUp σ =
    if negb (bool_decide (Signup.password σ = Signup.confirmPassword σ))
    then ([], shown (Some "비밀번호가 일치하지 않습니다.") None (Signup.isLoading σ),
          Eff.Return tt)
    else if (Auth.length (Signup.password σ) <? 6)%nat
    then ([], shown (Some "비밀번호는 최소 6자 이상이어야 합니다.") None
                (Signup.isLoading σ),
          Eff.Return tt)
    else
      match signUp (Signup.email σ) (Signup.password σ) with
      | Auth.rejected e | Auth.answered _ _ (Some e) =>
          ([call], shown (Some (Signup.errorFor e)) None false, Eff.Return tt)
      | Auth.answered None _ None =>
          ([call], shown None None false, Eff.Return tt)
      | Auth.answered (Some user) session None =>
          if match Auth.identities user with
             | Some n => (n =? 0)%nat
             | None => false
             end
          then ([call], shown (Some "이미 가입된 이메일 주소입니다.") None false,
                Eff.Return tt)
          else if JS.truthy_opt (Auth.confirmation_sent_at user) || negb session
          then ([call; Auth.setTimeout_push "/login" 3000],
                shown None
                  (Some "회원가입이 완료되었습니다! 이메일을 확인하여 계정을 활성화해주세요.")
                  false,
                Eff.Return tt)
          else ([call; Auth.setTimeout_push "/" 1500],
                shown None (Some "회원가입이 완료되었습니다!") false,
                Eff.Return tt)
      end.
Proof.
  intros shown call. subst shown call.
  unfold Signup.handleSubmit, Signup.validatePasswords, Eff.bind, Eff.get,
    Eff.try_finally, Eff.try_catch, Signup.setError, Signup.setSuccessMessage,
    Signup.setIsLoading, Eff.modify, Eff.emit, Eff.ret, Eff.throw.
  simpl.
  destruct (bool_decide (Signup.password σ = Signup.confirmPassword σ)); simpl;
    [|reflexivity].
  destruct (Auth.length (Signup.password σ) <? 6)%nat; simpl; [reflexivity|].
  destruct (signUp (Signup.email σ) (Signup.password σ))
    as [[user|] session [e|]|e]; simpl; try reflexivity.
  destruct (match Auth.identities user with
            | Some n => (n =? 0)%nat
            | None => false
            end); simpl; [reflexivity|].
  destruct (JS.truthy_opt (Auth.confirmation_sent_at user) || negb session);
    reflexivity.
Qed.

(** X28. The sign-up form checks the passwords before anything is sent:
    when they differ the handler shows the mismatch message, also for a
    short password; when they agree but have fewer than six UTF-16 units
    it shows the length message; in both cases nothing is sent and the
    loading flag is not touched.  Otherwise [signUp] is called exactly
    once, first, with the e-mail address and the password of the form. *)
Theorem signup_checks_passwords_first (σ : Signup.State) :
  let run := Signup.handleSubmit signUp σ in
  let shown msg :=
    {| Signup.email := Signup.email σ; Signup.password := Signup.password σ;
       Signup.confirmPassword := Signup.confirmPassword σ;
       Signup.isLoading := Signup.isLoading σ;
       Signup.error := Some msg; Signup.successMessage := None |} in
  (Signup.password σ ≠ Signup.confirmPassword σ →
     run = ([], shown "비밀번호가 일치하지 않습니다.", Eff.Return tt)) ∧
  (Signup.password σ = Signup.confirmPassword σ →
   (Auth.length (Signup.password σ) < 6)%nat →
     run = ([], shown "비밀번호는 최소 6자 이상이어야 합니다.", Eff.Return tt)) ∧
  (Signup.password σ = Signup.confirmPassword σ →
   (6 ≤ Auth.length (Signup.password σ))%nat →
     ∃ tr σ',
       run = (Auth.await_signUp (Signup.email σ) (Signup.password σ) :: tr,
              σ', Eff.Return tt) ∧
       (∀ email password, Auth.await_signUp email password ∉ tr)).
Proof.
  intros run shown. subst run shown. rewrite signup_cases.
  split; [|split].
  - intros Hne. by rewrite bool_decide_eq_false_2.
  - intros Heq Hshort. rewrite bool_decide_eq_true_2 by done. simpl.
    by apply Nat.ltb_lt in Hshort as ->.
  - intros Heq Hlong. rewrite bool_decide_eq_true_2 by done. simpl.
    apply Nat.ltb_ge in Hlong as ->.
    destruct (signUp (Signup.email σ) (Signup.password σ))
      as [[user|] session [e|]|e];
      try (eexists _, _; split; [reflexivity|]; intros; step_not_in).
    destruct (match Auth.identities user with
              | Some n => (n =? 0)%nat
              | None => false
              end);
      [|destruct (JS.truthy_opt (Auth.confirmation_sent_at user) || negb session)];
      eexists _, _; (split; [reflexivity|]); intros; step_not_in.
Qed.

(** X29. The sign-up handler never throws and leaves the three fields of
    the form alone.  It never shows an error and a success message
    together; a success message is shown exactly when a redirect is
    scheduled; the redirect goes to the start page after 1.5 s only when
    the answer carries a session and no truthy [confirmation_sent_at],
    else to the sign-in page after 3 s.  When the answer has neither an
    error nor a user, the handler ends without any message. *)
Theorem signup_outcome (σ : Signup.State) :
  ∃ tr σ',
    Signup.handleSubmit signUp σ = (tr, σ', Eff.Return tt) ∧
    (Signup.email σ' = Signup.email σ ∧
     Signup.password σ' = Signup.password σ ∧
     Signup.confirmPassword σ' = Signup.confirmPassword σ) ∧
    (Signup.error σ' = None ∨ Signup.successMessage σ' = None) ∧
    (Signup.successMessage σ' ≠ None ↔
       ∃ path ms, Auth.setTimeout_push path ms ∈ tr) ∧
    (∀ path ms, Auth.setTimeout_push path ms ∈ tr →
       (path = "/login" ∧ ms = 3000) ∨
       (path = "/" ∧ ms = 1500 ∧
        ∃ user, signUp (Signup.email σ) (Signup.password σ)
                = Auth.answered (Some user) true None ∧
                JS.truthy_opt (Auth.confirmation_sent_at user) = false)) ∧
    (∀ s, Signup.password σ = Signup.confirmPassword σ →
          (6 ≤ Auth.length (Signup.password σ))%nat →
          signUp (Signup.email σ) (Signup.password σ)
          = Auth.answered None s None →
          Signup.isLoading σ' = false ∧
          Signup.error σ' = None ∧ Signup.successMessage σ' = None).
Proof.
  rewrite signup_cases.
  assert (∀ (tr : list Auth.Step) (σ' : Signup.State) (P : Prop),
            Signup.successMessage σ' = None →
            (∀ path ms, Auth.setTimeout_push path ms ∉ tr) →
            P →
            (Signup.error σ' = None ∨ Signup.successMessage σ' = None) ∧
            (Signup.successMessage σ' ≠ None ↔
               ∃ path ms, Auth.setTimeout_push path ms ∈ tr) ∧
            (∀ path ms, Auth.setTimeout_push path ms ∈ tr →
               (path = "/login" ∧ ms = 3000) ∨
               (path = "/" ∧ ms = 1500 ∧
                ∃ user, signUp (Signup.email σ) (Signup.password σ)
                        = Auth.answered (Some user) true None ∧
                        JS.truthy_opt (Auth.confirmation_sent_at user) = false)) ∧
            P) as Hquiet.
  { intros tr σ' P Hnone Hnot HP. split; [by right|]. split; [|split; [|done]].
    - split; [done|]. intros (path & ms & Hin). by apply Hnot in Hin.
    - intros path ms Hin. by apply Hnot in Hin. }
  destruct (bool_decide (Signup.password σ = Signup.confirmPassword σ))
    eqn:Hsame; simpl.
  2: { apply bool_decide_eq_false in Hsame.
       eexists _, _. split; [reflexivity|]. split; [done|].
       apply Hquiet; [done|intros; step_not_in|]. by intros s Heq. }
  destruct (Auth.length (Signup.password σ) <? 6)%nat eqn:Hlen.
  { apply Nat.ltb_lt in Hlen.
    eexists _, _. split; [reflexivity|]. split; [done|].
    apply Hquiet; [done|intros; step_not_in|]. intros s _ Hlong. lia. }
  destruct (signUp (Signup.email σ) (Signup.password σ))
    as [[user|] session [e|]|e].
  1, 3, 4, 5:
    eexists _, _; (split; [reflexivity|]); (split; [done|]);
    (apply Hquiet; [done|intros; step_not_in|]); by intros s _ _.
  destruct (match Auth.identities user with
            | Some n => (n =? 0)%nat
            | None => false
            end).
  { eexists _, _; (split; [reflexivity|]); (split; [done|]).
    apply Hquiet; [done|intros; step_not_in|]. by intros s _ _. }
  assert (∀ path ms (σ' : Signup.State) (P : Prop),
            Signup.error σ' = None →
            Signup.successMessage σ' ≠ None →
            ((path = "/login" ∧ ms = 3000) ∨
             (path = "/" ∧ ms = 1500 ∧
              ∃ user', Auth.answered (Some user) session None
                       = Auth.answered (Some user') true None ∧
                       JS.truthy_opt (Auth.confirmation_sent_at user') = false)) →
            P →
            (Signup.error σ' = None ∨ Signup.successMessage σ' = None) ∧
            (Signup.successMessage σ' ≠ None ↔
               ∃ path' ms',
                 Auth.setTimeout_push path' ms'
                 ∈ [Auth.await_signUp (Signup.email σ) (Signup.password σ);
                    Auth.setTimeout_push path ms]) ∧
            (∀ path' ms',
               Auth.setTimeout_push path' ms'
               ∈ [Auth.await_signUp (Signup.email σ) (Signup.password σ);
                  Auth.setTimeout_push path ms] →
               (path' = "/login" ∧ ms' = 3000) ∨
               (path' = "/" ∧ ms' = 1500 ∧
                ∃ user', Auth.answered (Some user) session None
                         = Auth.answered (Some user') true None ∧
                         JS.truthy_opt (Auth.confirmation_sent_at user') = false)) ∧
            P) as Hredirect.
  { intros path ms σ' P Herr Hsucc Hwhere HP. split; [by left|].
    split; [|split; [|done]].
    - split; [|done]. intros _. exists path, ms. step_in.
    - intros path' ms' [Hin|[Hin|Hin%elem_of_nil]%elem_of_cons]%elem_of_cons;
        try done. by injection Hin as -> ->. }
  destruct (JS.truthy_opt (Auth.confirmation_sent_at user)) eqn:Hsent; simpl.
  { eexists _, _; (split; [reflexivity|]); (split; [done|]).
    apply Hredirect; [done|done|by left|]. by intros s _ _. }
  destruct session; simpl.
  - eexists _, _; (split; [reflexivity|]); (split; [done|]).
    apply Hredirect; [done|done| |by intros s _ _].
    right. repeat split. by exists user.
  - eexists _, _; (split; [reflexivity|]); (split; [done|]).
    apply Hredirect; [done|done|by left|]. by intros s _ _.
Qed.

End SignupProperties.

Section LoginProperties.
Context {rt : JS.Runtime}.
Variable signInWithPassword : string → string → Auth.Answer.

(** The second test for "email not confirmed" in the [catch] block can
    never succeed: the first condition has already taken that case. *)
Lemma login_errorFor_not_confirmed (err : Thrown) :
  Login.errorFor err ≠ "이메일 인증이 완료되지 않았습니다. 이메일을 확인해주세요.".
Proof.
  unfold Login.errorFor. destruct err as [message code|code|]; try done.
  simpl.
  destruct (JS.includes (JS.toLowerCase message) "invalid login credentials");
    simpl; [done|].
  destruct (JS.includes (JS.toLowerCase message) "invalid credentials");
    simpl; [done|].
  destruct (JS.includes (JS.toLowerCase message) "email not confirmed");
    simpl; [done|].
  by destruct (JS.includes (JS.toLowerCase message) "too many requests").
Qed.

(** X30. The sign-in handler always calls [signInWithPassword] once, with
    the fields of the form, never throws, leaves the fields alone and ends
    with the loading flag off.  It goes to the start page (push, then
    refresh) exactly when the answer has no error and carries a session,
    and it shows an error exactly when the call rejects or answers with an
    error.  The message for an unconfirmed e-mail address is never shown:
    such an error gets the message for wrong credentials. *)
Theorem login_outcome (σ : Login.State) :
  let answer := signInWithPassword (Login.email σ) (Login.password σ) in
  ∃ tr σ',
    Login.handleSubmit signInWithPassword σ
    = (Auth.await_signInWithPassword (Login.email σ) (Login.password σ) :: tr,
       σ', Eff.Return tt) ∧
    (Login.email σ' = Login.email σ ∧ Login.password σ' = Login.password σ ∧
     Login.isLoading σ' = false) ∧
    ((∃ user, answer = Auth.answered user true None) ∧
       tr = [Auth.router_push "/"; Auth.router_refresh] ∧
       Login.error σ' = None
     ∨ (∃ user, answer = Auth.answered user false None) ∧
       tr = [] ∧ Login.error σ' = None
     ∨ (∃ e, (answer = Auth.rejected e ∨
              ∃ user session, answer = Auth.answered user session (Some e)) ∧
             tr = [] ∧ Login.error σ' = Some (Login.errorFor e) ∧
             (∀ message code,
                e = error_obj message code →
                JS.includes (JS.toLowerCase message) "email not confirmed" = true →
                Login.error σ' = Some "이메일 또는 비밀번호가 올바르지 않습니다."))) ∧
    Login.error σ'
      ≠ Some "이메일 인증이 완료되지 않았습니다. 이메일을 확인해주세요.".
Proof.
  intros answer. subst answer.
  unfold Login.handleSubmit, Eff.bind, Eff.get, Eff.try_finally, Eff.try_catch,
    Login.setError, Login.setIsLoading, Eff.modify, Eff.emit, Eff.ret, Eff.throw.
  simpl.
  destruct (signInWithPassword (Login.email σ) (Login.password σ))
    as [user session [e|]|e]; simpl.
  - eexists _, _. split; [reflexivity|]. simpl. split; [done|]. split.
    + right. right. exists e. split; [right; by eexists _, _|].
      split; [done|]. split; [done|].
      intros message code -> Hinc. unfold Login.errorFor.
      rewrite Hinc. by rewrite !orb_true_r.
    + intros [= H]. by apply login_errorFor_not_confirmed in H.
  - destruct session; simpl.
    + eexists _, _. split; [reflexivity|]. simpl. split; [done|]. split; [|done].
      left. split; [by eexists|done].
    + eexists _, _. split; [reflexivity|]. simpl. split; [done|]. split; [|done].
      right. left. split; [by eexists|done].
  - eexists _, _. split; [reflexivity|]. simpl. split; [done|]. split.
    + right. right. exists e. split; [by left|].
      split; [done|]. split; [done|].
      intros message code -> Hinc. unfold Login.errorFor.
      rewrite Hinc. by rewrite !orb_true_r.
    + intros [= H]. by apply login_errorFor_not_confirmed in H.
Qed.

End LoginProperties.

(** * The further properties on the sample data *)

Example toISOString_samples :
  HostDate.toISOString "2024-02-29T23:59:59.123+09:00"
    = inr "2024-02-29T14:59:59.123Z" ∧
  HostDate.toISOString "1969-12-31T23:59:59Z" = inr "1969-12-31T23:59:59.000Z" ∧
  HostDate.toISOString "someday" = inl (error_obj "Invalid time value" None).
Proof. by vm_compute. Qed.

Example view_of_samples_by_priority :
  List.map title
    (view (rt := Host.utc) Samples.todos "" all all by_priority Sample.now)
  = ["Pay the Rent"; "Buy stamps"; "Read the rental contract"; "Quarterly report"].
Proof. reflexivity. Qed.

Lemma view_by_priority_descending_sample :
  view (rt := Host.utc) Samples.todos "" all all by_priority Sample.now !! 1%nat
    = Some Samples.errand ∧
  view (rt := Host.utc) Samples.todos "" all all by_priority Sample.now !! 3%nat
    = Some Sample.report ∧
  priorityOrder (JS.opt_or (priority Sample.report) low)
    ≤ priorityOrder (JS.opt_or (priority Samples.errand) low).
Proof.
  split; [reflexivity|]. split; [reflexivity|].
  apply (view_by_priority_descending (rt := Host.utc) Samples.todos "" all all
           Sample.now 1 3 Samples.errand Sample.report);
    [reflexivity|reflexivity|lia].
Defined.

Lemma view_by_created_date_descending_sample :
  forallb (valid_created_date (rt := Host.utc)) Samples.todos = true ∧
  view (rt := Host.utc) Samples.todos "" all all by_created_date Sample.now !! 0%nat
    = Some Samples.errand ∧
  view (rt := Host.utc) Samples.todos "" all all by_created_date Sample.now !! 3%nat
    = Some Sample.rent ∧
  ∃ x y, Host.Date_parse (created_date Samples.errand) = JS.Int x ∧
         Host.Date_parse (created_date Sample.rent) = JS.Int y ∧ y ≤ x.
Proof.
  split; [reflexivity|]. split; [reflexivity|]. split; [reflexivity|].
  apply (view_by_created_date_descending (rt := Host.utc) Samples.todos "" all all
           Sample.now 0 3 Samples.errand Sample.rent);
    [reflexivity|reflexivity|reflexivity|lia].
Defined.

Lemma view_by_due_date_keeps_ties_sample :
  forallb (valid_due_date (rt := Host.utc)) Samples.todos = true ∧
  List.filter (λ t, bool_decide (due_key (rt := Host.utc) t = None))
    (view (rt := Host.utc) Samples.todos "" all all by_due_date Sample.now)
  = [Sample.reading; Samples.errand] ∧
  List.filter (λ t, bool_decide (due_key (rt := Host.utc) t = None))
    (view (rt := Host.utc) Samples.todos "" all all by_due_date Sample.now)
  = List.filter (λ t, bool_decide (due_key (rt := Host.utc) t = None))
      (filtered (rt := Host.utc) Samples.todos "" all all Sample.now).
Proof.
  split; [reflexivity|]. split; [reflexivity|].
  exact (view_by_due_date_keeps_ties (rt := Host.utc) Samples.todos "" all all
           Sample.now None eq_refl).
Defined.

Lemma view_without_filters_shows_all_sample :
  JS.truthy (JS.trim "  ") = false ∧
  view (rt := Host.utc) Samples.todos "  " all all by_title Sample.now
    ≡ₚ Samples.todos.
Proof.
  split; [reflexivity|].
  exact (view_without_filters_shows_all (rt := Host.utc) Samples.todos "  "
           by_title Sample.now eq_refl).
Defined.

Lemma toggle_twice_restores_list_sample :
  Page.user Sample.page = Some Sample.user ∧
  Page.toggled "1" (Page.toggled "1" (Page.todos Sample.page))
    = Page.todos Sample.page ∧
  ∃ tr1 σ1 tr2 σ2,
    Page.handleToggleComplete Sample.confirming "1" Sample.page
      = (tr1, σ1, Eff.Return tt) ∧
    Page.handleToggleComplete Sample.confirming "1" σ1 = (tr2, σ2, Eff.Return tt) ∧
    Page.todos σ2 = Page.todos Sample.page.
Proof.
  split; [reflexivity|].
  exact (toggle_twice_restores_list Sample.confirming Sample.page Sample.user "1"
           eq_refl (λ c, ex_intro _ None eq_refl)).
Defined.



Lemma delete_outcome_sample :
  Page.user Sample.page = Some Sample.user ∧
  Home.confirm_answer Samples.home "정말 삭제하시겠습니까?" = true ∧
  ∃ tr σ',
    Home.handleDelete Samples.home "1" Sample.page
      = ([Home.confirm "정말 삭제하시겠습니까?"; Home.await_delete "1" "u1"] ++ tr,
         σ', Eff.Return tt) ∧
    (∀ t, t ∈ Page.todos σ' ↔ t ∈ Sample.todos ∧ id t ≠ "1").
Proof.
  split; [reflexivity|]. split; [reflexivity|].
  destruct (proj1 (delete_outcome Samples.home Sample.page Sample.user "1"
                     eq_refl eq_refl) None eq_refl)
    as (tr & σ' & Hrun & Hleft & _).
  exists tr, σ'. split; [exact Hrun|exact Hleft].
Defined.


Lemma edit_round_trip_sample :
  JS.truthy (JS.trim (title Sample.rent)) = true ∧
  HostDate.toISOString (JS.opt_or (due_date Sample.rent) "")
    = inr "2024-01-02T10:00:00.000Z" ∧
  ∃ σ1 data,
    FormFields.loadInitialData HostDate.toISOString (Some Sample.rent) Sample.form
      = ([], σ1, Eff.Return tt) ∧
    Form.handleSubmit σ1 = ([Form.onSubmit data], σ1, Eff.Return tt) ∧
    Page.row_title (Rows.updated data) = title Sample.rent ∧
    Page.row_description (Rows.updated data) = description Sample.rent ∧
    Page.row_due_date (Rows.updated data) = Some "2024-01-02T10:00".
Proof.
  split; [reflexivity|]. split; [reflexivity|].
  destruct (edit_round_trip HostDate.toISOString Sample.form Sample.rent eq_refl
              (λ _, ex_intro _ "2024-01-02T10:00:00.000Z" eq_refl))
    as (σ1 & data & Hload & Hsubmit & Htitle & Hdescr & _ & _ & _ & Hdue).
  exists σ1, data. split; [exact Hload|]. split; [exact Hsubmit|].
  split; [exact Htitle|]. split; [exact Hdescr|].
  exact (Hdue "2024-01-02T10:00:00.000Z" eq_refl eq_refl).
Defined.
